(** * SleepDreamss: the sleep-detection service

    A shallow embedding of [src/services/sleepDetection.ts] and of the part of
    [src/services/storage.ts] it calls, followed by the properties of the
    motion buffer, the probability model, the session state machine and the
    tracking lifecycle.

    JavaScript numbers are IEEE 754 binary64 values and are modelled by Rocq's
    primitive floats, which are the same format with the same correctly
    rounded operations.  Time values (milliseconds since the epoch) are
    integral and below 2^53 in magnitude, as are their sums and differences in
    this service, so they are modelled by [Z]. *)

From Stdlib Require Import ZArith Floats Uint63 List Lia String Bool DecimalString.
Import ListNotations.

Set Warnings "-inexact-float".
Local Open Scope Z_scope.

(** ** The fragment of ECMAScript [Number] and [Math] used by the service *)

Module JS.

(** An integer as a number: exact for magnitudes up to 2^53 and rounded to
    nearest up to 2^63, which covers every time value and duration. *)
Definition ofZ (z : Z) : float :=
  if z <? 0 then (- of_uint63 (Uint63.of_Z (- z)))%float
  else of_uint63 (Uint63.of_Z z).

(** Relational operators on numbers: every comparison with NaN is false. *)
Definition lt (a b : float) : bool := (a <? b)%float.
Definition gt (a b : float) : bool := (b <? a)%float.
Definition le (a b : float) : bool := (a <=? b)%float.
Definition ge (a b : float) : bool := (b <=? a)%float.

(** [Math.min]: NaN if either argument is NaN, and -0 is below +0. *)
Definition Math_min (a b : float) : float :=
  if is_nan a || is_nan b then nan
  else if (a <? b)%float then a
  else if (b <? a)%float then b
  else if get_sign a then a else b.

(** [Math.max]: NaN if either argument is NaN, and +0 is above -0. *)
Definition Math_max (a b : float) : float :=
  if is_nan a || is_nan b then nan
  else if (a <? b)%float then b
  else if (b <? a)%float then a
  else if get_sign a then b else a.

Definition Math_sqrt (a : float) : float := PrimFloat.sqrt a.

(** [a ** 2], the correctly rounded square. *)
Definition sq (a : float) : float := (a * a)%float.

(** [Math.round]: the integer nearest to the argument, ties going up;
    NaN, the infinities and integral values are returned as they are, and a
    negative argument that rounds to zero gives -0. *)
Definition Math_round (a : float) : float :=
  match Prim2SF a with
  | S754_finite s m e =>
      if 0 <=? e then a
      else
        let sm := if s then Z.neg m else Z.pos m in
        let n := Z.shiftr (2 * sm + 2 ^ (- e)) (1 - e) in
        if n =? 0 then (if s then (-0)%float else 0%float) else ofZ n
  | _ => a
  end.

(** [Array.prototype.slice(-k)]: the last [k] elements. *)
Definition slice_last {A : Type} (k : nat) (l : list A) : list A :=
  skipn (List.length l - k)%nat l.

(** [Array.prototype.shift]: the array without its first element. *)
Definition shift {A : Type} (l : list A) : list A := tl l.

(** [Array.prototype.push]: the element is appended at the end. *)
Definition push {A : Type} (l : list A) (a : A) : list A := l ++ [a].

(** [Array.prototype.findIndex]; [None] stands for -1. *)
Fixpoint findIndex {A : Type} (f : A -> bool) (l : list A) : option nat :=
  match l with
  | [] => None
  | a :: r => if f a then Some O else option_map S (findIndex f r)
  end.

(** [l[i] = a] for an index within the array. *)
Fixpoint assign {A : Type} (i : nat) (a : A) (l : list A) : list A :=
  match l, i with
  | [], _ => []
  | _ :: r, O => a :: r
  | b :: r, S j => b :: assign j a r
  end.

(** [Number.prototype.toString] of an integral time value. *)
Definition toString (z : Z) : string := NilZero.string_of_int (Z.to_int z).

End JS.

(** ** Data model ([@/types/sleep]) *)

(** A [Date], by its time value in milliseconds since the epoch. *)
Definition Date := Z.

Record Vec3 := { x : float; y : float; z : float }.
Record Rot3 := { alpha : float; beta : float; gamma : float }.

Record DeviceMotionData := {
  timestamp : Z;
  acceleration : Vec3;
  rotation : Rot3
}.

Record SleepSession := {
  id : string;
  bedtime : Date;
  wakeTime : option Date;
  duration : Z;
  quality : float;
  isManual : bool;
  confidence : float
}.

Module DetectionState.
Record SleepDetectionState := {
  isTracking : bool;
  currentSession : option SleepSession;
  lastActivity : Date;
  inactivityDuration : Z;
  sleepProbability : float
}.
End DetectionState.

(** What [DeviceMotion] hands to a listener: either reading may be missing. *)
Module Sensor.
Record Measurement := {
  acceleration : option Vec3;
  rotation : option Rot3
}.
End Sensor.

(** ** The service object and its surroundings *)

(** The private fields of [SleepDetectionService]; a subscription and a timer
    are known by the handle the host gave out for them. *)
Record SleepDetectionService := {
  _isServiceActive : bool;
  motionSubscription : option nat;
  detectionInterval : option nat;
  lastActivity : Date;
  motionBuffer : list DeviceMotionData;
  currentSession : option SleepSession
}.

Definition INACTIVITY_THRESHOLD : Z := 15 * 60 * 1000.
Definition MOTION_THRESHOLD : float := 0.1%float.
Definition SLEEP_CONFIDENCE_THRESHOLD : float := 0.8%float.
Definition DETECTION_INTERVAL : Z := 30 * 1000.

(** The host side of [DeviceMotion], [setInterval] and [clearInterval]: the
    listeners and timers that are live, and the next handle to give out. *)
Record Host := {
  nextHandle : nat;
  listeners : list nat;
  intervals : list (nat * Z);
  updateInterval : option Z
}.

(** [AsyncStorage], by the two items the service touches.  The item
    [sleep_sessions] holds a JSON array; it is kept as the list of sessions
    that [getSleepSessions] reads back from it. *)
Record AsyncStorage := {
  sleepTracking : option string;
  sleep_sessions : option (list SleepSession)
}.

Inductive Error := mkError (message : string).

Inductive LogLine :=
| console_log (msg : string) (arg : option SleepSession)
| console_error (msg : string) (e : Error).

Record World := {
  this : SleepDetectionService;
  host : Host;
  disk : AsyncStorage;
  console : list LogLine
}.

Inductive OS := web | ios | android.

Inductive PermissionStatus := granted | denied | undetermined.

(** What one call observes of its surroundings: the platform, the outcome of
    the permission request, the clock at each place the call reads it, and
    whether [AsyncStorage] rejects a read or a write. *)
Record Env := {
  Platform_OS : OS;
  requestPermissionsAsync : PermissionStatus;
  LocalTZA : Date -> Z;
  now : Date;
  now_start : Date;
  now_end : Date;
  getItem_rejects : bool;
  setItem_rejects : bool
}.

(** [Date.prototype.getHours]: the hour of the local time of a time value. *)
Definition getHours (env : Env) (t : Date) : Z :=
  ((t + LocalTZA env t) / 3600000) mod 24.

Definition is_web (o : OS) : bool :=
  match o with web => true | _ => false end.

Definition is_granted (s : PermissionStatus) : bool :=
  match s with granted => true | _ => false end.

(** Field updates. *)
Definition set_isServiceActive (b : bool) (s : SleepDetectionService) :=
  {| _isServiceActive := b; motionSubscription := motionSubscription s;
     detectionInterval := detectionInterval s; lastActivity := lastActivity s;
     motionBuffer := motionBuffer s; currentSession := currentSession s |}.

Definition set_motionSubscription (h : option nat) (s : SleepDetectionService) :=
  {| _isServiceActive := _isServiceActive s; motionSubscription := h;
     detectionInterval := detectionInterval s; lastActivity := lastActivity s;
     motionBuffer := motionBuffer s; currentSession := currentSession s |}.

Definition set_detectionInterval (h : option nat) (s : SleepDetectionService) :=
  {| _isServiceActive := _isServiceActive s;
     motionSubscription := motionSubscription s;
     detectionInterval := h; lastActivity := lastActivity s;
     motionBuffer := motionBuffer s; currentSession := currentSession s |}.

Definition set_lastActivity (t : Date) (s : SleepDetectionService) :=
  {| _isServiceActive := _isServiceActive s;
     motionSubscription := motionSubscription s;
     detectionInterval := detectionInterval s; lastActivity := t;
     motionBuffer := motionBuffer s; currentSession := currentSession s |}.

Definition set_motionBuffer (b : list DeviceMotionData) (s : SleepDetectionService) :=
  {| _isServiceActive := _isServiceActive s;
     motionSubscription := motionSubscription s;
     detectionInterval := detectionInterval s; lastActivity := lastActivity s;
     motionBuffer := b; currentSession := currentSession s |}.

Definition set_currentSession (c : option SleepSession) (s : SleepDetectionService) :=
  {| _isServiceActive := _isServiceActive s;
     motionSubscription := motionSubscription s;
     detectionInterval := detectionInterval s; lastActivity := lastActivity s;
     motionBuffer := motionBuffer s; currentSession := c |}.

Definition set_this (s : SleepDetectionService) (w : World) :=
  {| this := s; host := host w; disk := disk w; console := console w |}.

Definition set_host (h : Host) (w : World) :=
  {| this := this w; host := h; disk := disk w; console := console w |}.

Definition set_disk (d : AsyncStorage) (w : World) :=
  {| this := this w; host := host w; disk := d; console := console w |}.

Definition set_console (c : list LogLine) (w : World) :=
  {| this := this w; host := host w; disk := disk w; console := c |}.

(** ** Asynchronous methods

    An [async] method reads its surroundings, updates the world and either
    completes normally or throws; [await] is sequencing. *)

Inductive Completion (A : Type) :=
| Normal (a : A)
| Throw (e : Error).

Arguments Normal {A} a.
Arguments Throw {A} e.

Definition Async (A : Type) : Type := Env -> World -> Completion A * World.

Definition ret {A : Type} (a : A) : Async A := fun _ w => (Normal a, w).

Definition throw {A : Type} (e : Error) : Async A := fun _ w => (Throw e, w).

Definition bind {A B : Type} (m : Async A) (k : A -> Async B) : Async B :=
  fun env w =>
    match m env w with
    | (Normal a, w') => k a env w'
    | (Throw e, w') => (Throw e, w')
    end.

Definition try_catch {A : Type} (body : Async A) (handler : Error -> Async A)
  : Async A :=
  fun env w =>
    match body env w with
    | (Normal a, w') => (Normal a, w')
    | (Throw e, w') => handler e env w'
    end.

Definition ask : Async Env := fun env w => (Normal env, w).

Definition read_this : Async SleepDetectionService :=
  fun _ w => (Normal (this w), w).

Definition update_this (f : SleepDetectionService -> SleepDetectionService)
  : Async unit :=
  fun _ w => (Normal tt, set_this (f (this w)) w).

Definition when (b : bool) (m : Async unit) : Async unit :=
  if b then m else ret tt.

Declare Scope async_scope.
Delimit Scope async_scope with async.
Notation "x <- m ;; k" := (bind m (fun x => k))
  (at level 61, m at next level, right associativity) : async_scope.
Notation "m ;; k" := (bind m (fun _ => k))
  (at level 61, right associativity) : async_scope.

Definition log (l : LogLine) : Async unit :=
  fun _ w => (Normal tt, set_console (console w ++ [l]) w).

Definition AsyncStorage_getItem {A : Type} (item : AsyncStorage -> option A)
  : Async (option A) :=
  fun env w =>
    if getItem_rejects env then (Throw (mkError "AsyncStorage.getItem"), w)
    else (Normal (item (disk w)), w).

Definition AsyncStorage_setItem (write : AsyncStorage -> AsyncStorage)
  : Async unit :=
  fun env w =>
    if setItem_rejects env then (Throw (mkError "AsyncStorage.setItem"), w)
    else (Normal tt, set_disk (write (disk w)) w).

Definition write_sleepTracking (v : string) (d : AsyncStorage) : AsyncStorage :=
  {| sleepTracking := Some v; sleep_sessions := sleep_sessions d |}.

Definition write_sleep_sessions (l : list SleepSession) (d : AsyncStorage)
  : AsyncStorage :=
  {| sleepTracking := sleepTracking d; sleep_sessions := Some l |}.

(** ** [StorageService] *)

Module StorageService.

(** A failed read is logged and gives the empty list; a missing item gives the
    empty list as well. *)
Definition getSleepSessions : Async (list SleepSession) :=
  try_catch
    (sessionsJson <- AsyncStorage_getItem sleep_sessions ;;
     match sessionsJson with
     | None => ret []
     | Some sessions => ret sessions
     end)%async
    (fun error =>
       log (console_error "Failed to get sleep sessions:" error) ;;
       ret [])%async.

(** Insert or replace by [id]; a failure is logged and thrown again. *)
Definition saveSleepSession (session : SleepSession) : Async unit :=
  try_catch
    (existingSessions <- getSleepSessions ;;
     let updated :=
       match JS.findIndex (fun s => String.eqb (id s) (id session)) existingSessions with
       | Some sessionIndex => JS.assign sessionIndex session existingSessions
       | None => JS.push existingSessions session
       end in
     AsyncStorage_setItem (write_sleep_sessions updated))%async
    (fun error =>
       log (console_error "Failed to save sleep session:" error) ;;
       throw error)%async.

End StorageService.

(** ** [SleepDetectionService]: the methods that only read *)

Definition magnitude (a : Vec3) : float :=
  JS.Math_sqrt (JS.sq (x a) + JS.sq (y a) + JS.sq (z a))%float.

Definition hasSignificantMotion (motion : DeviceMotionData) : bool :=
  JS.gt (magnitude (acceleration motion)) MOTION_THRESHOLD.

Definition getRecentMotionLevel (self : SleepDetectionService) : float :=
  if Nat.eqb (List.length (motionBuffer self)) 0 then 0%float
  else
    let recentMotions := JS.slice_last 60 (motionBuffer self) in
    let motionSum :=
      fold_left (fun sum motion => (sum + magnitude (acceleration motion))%float)
                recentMotions 0%float in
    JS.Math_min
      (motionSum / JS.ofZ (Z.of_nat (List.length recentMotions)) / MOTION_THRESHOLD)%float
      1%float.

Definition calculateSleepProbability (env : Env) (self : SleepDetectionService)
    (inactivityDuration : Z) (currentTime : Date) : float :=
  let probability := 0%float in
  let inactivityFactor :=
    (JS.Math_min (JS.ofZ inactivityDuration / JS.ofZ INACTIVITY_THRESHOLD) 1 * 0.4)%float in
  let probability := (probability + inactivityFactor)%float in
  let hour := getHours env currentTime in
  let timeOfDayFactor :=
    if (hour >=? 22) || (hour <=? 6) then 0.3%float
    else if (hour >=? 13) && (hour <=? 15) then 0.15%float
    else 0%float in
  let probability := (probability + timeOfDayFactor)%float in
  let recentMotion := getRecentMotionLevel self in
  let motionFactor := ((1 - recentMotion) * 0.2)%float in
  let probability := (probability + motionFactor)%float in
  let probability :=
    if (hour >=? 23) || (hour <=? 6) then (probability + 0.1)%float
    else probability in
  JS.Math_min probability 1%float.

Definition calculateMotionQuality (self : SleepDetectionService) : float :=
  let avgMotion := getRecentMotionLevel self in
  JS.Math_round ((1 - avgMotion) * 100)%float.

Definition calculateSleepQuality (self : SleepDetectionService) (duration : Z)
  : float :=
  let hours := (JS.ofZ duration / JS.ofZ (1000 * 60 * 60))%float in
  let quality :=
    if JS.ge hours 7 && JS.le hours 9 then 90%float
    else if JS.ge hours 6 && JS.le hours 10 then 75%float
    else if JS.ge hours 5 && JS.le hours 11 then 60%float
    else 40%float in
  let motionQuality := calculateMotionQuality self in
  let quality := ((quality + motionQuality) / 2)%float in
  JS.Math_round (JS.Math_max 0 (JS.Math_min 100 quality)).

Definition getCurrentSession (self : SleepDetectionService) : option SleepSession :=
  currentSession self.

Definition getDetectionState (env : Env) (self : SleepDetectionService)
  : DetectionState.SleepDetectionState :=
  let now := now env in
  {| DetectionState.isTracking := _isServiceActive self;
     DetectionState.currentSession := currentSession self;
     DetectionState.lastActivity := lastActivity self;
     DetectionState.inactivityDuration := now - lastActivity self;
     DetectionState.sleepProbability :=
       calculateSleepProbability env self (now - lastActivity self) now |}.

(** ** The host: listeners and timers *)

Definition DeviceMotion_setUpdateInterval (ms : Z) : Async unit :=
  fun _ w =>
    (Normal tt,
     set_host {| nextHandle := nextHandle (host w);
                 listeners := listeners (host w);
                 intervals := intervals (host w);
                 updateInterval := Some ms |} w).

Definition DeviceMotion_addListener : Async nat :=
  fun _ w =>
    let h := nextHandle (host w) in
    (Normal h,
     set_host {| nextHandle := S h;
                 listeners := h :: listeners (host w);
                 intervals := intervals (host w);
                 updateInterval := updateInterval (host w) |} w).

Definition subscription_remove (h : nat) : Async unit :=
  fun _ w =>
    (Normal tt,
     set_host {| nextHandle := nextHandle (host w);
                 listeners := filter (fun k => negb (Nat.eqb k h)) (listeners (host w));
                 intervals := intervals (host w);
                 updateInterval := updateInterval (host w) |} w).

Definition setInterval (period : Z) : Async nat :=
  fun _ w =>
    let h := nextHandle (host w) in
    (Normal h,
     set_host {| nextHandle := S h;
                 listeners := listeners (host w);
                 intervals := (h, period) :: intervals (host w);
                 updateInterval := updateInterval (host w) |} w).

Definition clearInterval (h : nat) : Async unit :=
  fun _ w =>
    (Normal tt,
     set_host {| nextHandle := nextHandle (host w);
                 listeners := listeners (host w);
                 intervals := filter (fun t => negb (Nat.eqb (fst t) h)) (intervals (host w));
                 updateInterval := updateInterval (host w) |} w).

(** ** [SleepDetectionService]: the methods that write *)

Local Open Scope async_scope.

Definition no_acceleration : Vec3 := {| x := 0; y := 0; z := 0 |}.
Definition no_rotation : Rot3 := {| alpha := 0; beta := 0; gamma := 0 |}.

(** The listener that [startMotionMonitoring] registers. *)
Definition motionListener (motionData : Sensor.Measurement) : Async unit :=
  self <- read_this ;;
  if negb (_isServiceActive self) then ret tt
  else
    env <- ask ;;
    let now := now env in
    let motion :=
      {| timestamp := now;
         acceleration :=
           match Sensor.acceleration motionData with
           | Some a => a
           | None => no_acceleration
           end;
         rotation :=
           match Sensor.rotation motionData with
           | Some r => r
           | None => no_rotation
           end |} in
    update_this (fun s => set_motionBuffer (JS.push (motionBuffer s) motion) s) ;;
    self <- read_this ;;
    when (Nat.ltb 300 (List.length (motionBuffer self)))
         (update_this (fun s => set_motionBuffer (JS.shift (motionBuffer s)) s)) ;;
    when (hasSignificantMotion motion)
         (update_this (set_lastActivity now)).

Definition startMotionMonitoring : Async unit :=
  env <- ask ;;
  if is_web (Platform_OS env) then ret tt
  else
    DeviceMotion_setUpdateInterval 1000 ;;
    h <- DeviceMotion_addListener ;;
    update_this (set_motionSubscription (Some h)).

Definition startPeriodicDetection : Async unit :=
  h <- setInterval DETECTION_INTERVAL ;;
  update_this (set_detectionInterval (Some h)).

Definition startTracking : Async unit :=
  self <- read_this ;;
  if _isServiceActive self then ret tt
  else
    try_catch
      (env <- ask ;;
       when (negb (is_web (Platform_OS env)))
            (if negb (is_granted (requestPermissionsAsync env))
             then throw (mkError "Motion permissions not granted")
             else ret tt) ;;
       update_this (set_isServiceActive true) ;;
       update_this (set_lastActivity (now env)) ;;
       when (negb (is_web (Platform_OS env))) startMotionMonitoring ;;
       startPeriodicDetection ;;
       AsyncStorage_setItem (write_sleepTracking "true") ;;
       log (console_log "Sleep tracking started" None))
      (fun error =>
         log (console_error "Failed to start sleep tracking:" error) ;;
         update_this (set_isServiceActive false)).

Definition stopTracking : Async unit :=
  update_this (set_isServiceActive false) ;;
  self <- read_this ;;
  match motionSubscription self with
  | Some h =>
      subscription_remove h ;;
      update_this (set_motionSubscription None)
  | None => ret tt
  end ;;
  self <- read_this ;;
  match detectionInterval self with
  | Some h =>
      clearInterval h ;;
      update_this (set_detectionInterval None)
  | None => ret tt
  end ;;
  AsyncStorage_setItem (write_sleepTracking "false") ;;
  log (console_log "Sleep tracking stopped" None).

Definition isTracking : Async bool :=
  trackingStatus <- AsyncStorage_getItem sleepTracking ;;
  ret (match trackingStatus with
       | Some v => String.eqb v "true"
       | None => false
       end).

Definition startSleepSession (confidence : float) : Async unit :=
  self <- read_this ;;
  env <- ask ;;
  let bedtime := lastActivity self + INACTIVITY_THRESHOLD in
  let session :=
    {| id := JS.toString (now_start env);
       bedtime := bedtime;
       wakeTime := None;
       duration := 0;
       quality := 0;
       isManual := false;
       confidence := confidence |} in
  update_this (set_currentSession (Some session)) ;;
  log (console_log "Sleep session started:" (Some session)).

Definition endSleepSession : Async unit :=
  self <- read_this ;;
  match currentSession self with
  | None => ret tt
  | Some current =>
      env <- ask ;;
      let wakeTime := now_end env in
      let duration := wakeTime - bedtime current in
      let quality := calculateSleepQuality self duration in
      let completedSession :=
        {| id := id current;
           bedtime := bedtime current;
           wakeTime := Some wakeTime;
           duration := duration;
           quality := quality;
           isManual := isManual current;
           confidence := confidence current |} in
      StorageService.saveSleepSession completedSession ;;
      update_this (set_currentSession None) ;;
      log (console_log "Sleep session ended:" (Some completedSession))
  end.

Definition isNull {A : Type} (o : option A) : bool :=
  match o with None => true | Some _ => false end.

Definition performSleepDetection : Async unit :=
  env <- ask ;;
  self <- read_this ;;
  let now := now env in
  let inactivityDuration := now - lastActivity self in
  let sleepProbability := calculateSleepProbability env self inactivityDuration now in
  when (isNull (currentSession self) && JS.gt sleepProbability SLEEP_CONFIDENCE_THRESHOLD)
       (startSleepSession sleepProbability) ;;
  self <- read_this ;;
  when (negb (isNull (currentSession self)) && JS.lt sleepProbability 0.3)
       endSleepSession.

Local Close Scope async_scope.

(** ** The event loop *)

(** What can happen to the service: a caller invokes one of the two public
    lifecycle methods, the sensor delivers a measurement to a listener, or a
    timer fires.  A delivery to a removed listener or a cleared timer does
    nothing.  Each call runs to completion before the next event is taken;
    the only [await] of the service on real input and output is the write of
    a finalized session, and no other event is interleaved with it here. *)
Inductive Event :=
| call_startTracking
| call_stopTracking
| motion_update (h : nat) (motionData : Sensor.Measurement)
| interval_fired (h : nat).

Definition step (w : World) (ee : Env * Event) : World :=
  let (env, ev) := ee in
  match ev with
  | call_startTracking => snd (startTracking env w)
  | call_stopTracking => snd (stopTracking env w)
  | motion_update h motionData =>
      if existsb (Nat.eqb h) (listeners (host w))
      then snd (motionListener motionData env w) else w
  | interval_fired h =>
      if existsb (fun t => Nat.eqb h (fst t)) (intervals (host w))
      then snd (performSleepDetection env w) else w
  end.

Definition run (evs : list (Env * Event)) (w : World) : World :=
  fold_left step evs w.

(** The world right after the module is loaded at time [t0]: the singleton has
    just been constructed and nothing is stored. *)
Definition initial (t0 : Date) : World :=
  {| this := {| _isServiceActive := false;
                motionSubscription := None;
                detectionInterval := None;
                lastActivity := t0;
                motionBuffer := [];
                currentSession := None |};
     host := {| nextHandle := O; listeners := []; intervals := [];
                updateInterval := None |};
     disk := {| sleepTracking := None; sleep_sessions := None |};
     console := [] |}.

(** The sleep probability that a tick in surroundings [env] computes. *)
Definition tickProbability (env : Env) (w : World) : float :=
  calculateSleepProbability env (this w) (now env - lastActivity (this w)) (now env).

(** The sessions that the console reports as started and as ended. *)
Inductive Transition :=
| started (s : SleepSession)
| ended (s : SleepSession).

Fixpoint transitions (lines : list LogLine) : list Transition :=
  match lines with
  | [] => []
  | console_log msg (Some s) :: r =>
      if String.eqb msg "Sleep session started:" then started s :: transitions r
      else if String.eqb msg "Sleep session ended:" then ended s :: transitions r
      else transitions r
  | _ :: r => transitions r
  end.

(** ** Vocabulary for the statements *)

(** The session that [startSleepSession] creates. *)
Definition openedSession (env : Env) (self : SleepDetectionService)
    (confidence : float) : SleepSession :=
  {| id := JS.toString (now_start env);
     bedtime := lastActivity self + INACTIVITY_THRESHOLD;
     wakeTime := None;
     duration := 0;
     quality := 0;
     isManual := false;
     confidence := confidence |}.

(** The session that [endSleepSession] hands to the store. *)
Definition closedSession (env : Env) (self : SleepDetectionService)
    (current : SleepSession) : SleepSession :=
  {| id := id current;
     bedtime := bedtime current;
     wakeTime := Some (now_end env);
     duration := now_end env - bedtime current;
     quality := calculateSleepQuality self (now_end env - bedtime current);
     isManual := isManual current;
     confidence := confidence current |}.

(** What [saveSleepSession] writes when the write goes through. *)
Definition upsert (session : SleepSession) (existing : list SleepSession)
  : list SleepSession :=
  match JS.findIndex (fun s => String.eqb (id s) (id session)) existing with
  | Some i => JS.assign i session existing
  | None => JS.push existing session
  end.

(** What [getSleepSessions] returns. *)
Definition stored (env : Env) (d : AsyncStorage) : list SleepSession :=
  if getItem_rejects env then []
  else match sleep_sessions d with Some l => l | None => [] end.

(** What a read of the stored sessions leaves on the console. *)
Definition readLog (env : Env) : list LogLine :=
  if getItem_rejects env
  then [console_error "Failed to get sleep sessions:" (mkError "AsyncStorage.getItem")]
  else [].

(** The sample that the listener builds from a measurement. *)
Definition sample (env : Env) (motionData : Sensor.Measurement) : DeviceMotionData :=
  {| timestamp := now env;
     acceleration :=
       match Sensor.acceleration motionData with
       | Some a => a
       | None => no_acceleration
       end;
     rotation :=
       match Sensor.rotation motionData with
       | Some r => r
       | None => no_rotation
       end |}.

(** What the listener does to the buffer: push, then shift when over 300. *)
Definition record (motion : DeviceMotionData) (buffer : list DeviceMotionData)
  : list DeviceMotionData :=
  let pushed := JS.push buffer motion in
  if Nat.ltb 300 (List.length pushed) then JS.shift pushed else pushed.

(** A run of deliveries to the listener. *)
Definition deliver (w : World) (d : Env * Sensor.Measurement) : World :=
  snd (motionListener (snd d) (fst d) w).

(** Between two ticks of interest: measurements arrive and the timer fires,
    and no tick sees a probability below the end threshold. *)
Fixpoint stays_asleep (evs : list (Env * Event)) (w : World) : Prop :=
  match evs with
  | [] => True
  | (env, ev) :: r =>
      match ev with
      | motion_update _ _ => True
      | interval_fired _ => JS.lt (tickProbability env w) 0.3 = false
      | _ => False
      end /\ stays_asleep r (step w (env, ev))
  end.

(** *** The quality score in the words of the specification *)

Definition spec_bands : list (float * float * float) :=
  [ (7, 9, 90); (6, 10, 75); (5, 11, 60) ]%float.

(** The score of the narrowest band that contains [hours], 40 outside all. *)
Fixpoint spec_durationBase (bs : list (float * float * float)) (hours : float) : float :=
  match bs with
  | [] => 40%float
  | (lo, hi, score) :: r =>
      if JS.le lo hours && JS.le hours hi then score else spec_durationBase r hours
  end.

Definition spec_clamp (v lo hi : float) : float := JS.Math_max lo (JS.Math_min hi v).

Definition spec_qualityScore (durationMs : Z) (recentActivityLevel : float) : float :=
  let hours := (JS.ofZ durationMs / 3600000)%float in
  let motionQuality := JS.Math_round ((1 - recentActivityLevel) * 100)%float in
  JS.Math_round (spec_clamp ((spec_durationBase spec_bands hours + motionQuality) / 2)%float 0 100).

(** ** Concrete executions *)

(** Midnight UTC of 15 November 2023, and a time of that day. *)
Definition day : Date := 1700006400000.

Definition clock (h m s : Z) : Date := day + h * 3600000 + m * 60000 + s * 1000.

(** A phone in the UTC time zone with the permission granted and a working
    store, at time [t]. *)
Definition surroundings (t : Date) : Env :=
  {| Platform_OS := ios;
     requestPermissionsAsync := granted;
     LocalTZA := fun _ => 0;
     now := t;
     now_start := t;
     now_end := t;
     getItem_rejects := false;
     setItem_rejects := false |}.

(** The same phone with the permission denied. *)
Definition surroundings_denied (t : Date) : Env :=
  {| Platform_OS := ios;
     requestPermissionsAsync := denied;
     LocalTZA := fun _ => 0;
     now := t;
     now_start := t;
     now_end := t;
     getItem_rejects := false;
     setItem_rejects := false |}.

(** The same phone with a store that rejects writes. *)
Definition surroundings_full_disk (t : Date) : Env :=
  {| Platform_OS := ios;
     requestPermissionsAsync := granted;
     LocalTZA := fun _ => 0;
     now := t;
     now_start := t;
     now_end := t;
     getItem_rejects := false;
     setItem_rejects := true |}.

Definition still : Sensor.Measurement :=
  {| Sensor.acceleration := Some no_acceleration;
     Sensor.rotation := Some no_rotation |}.

Definition moved : Sensor.Measurement :=
  {| Sensor.acceleration := Some {| x := 1; y := 0; z := 0 |};
     Sensor.rotation := Some no_rotation |}.

Definition loud : DeviceMotionData :=
  {| timestamp := day;
     acceleration := {| x := 1; y := 0; z := 0 |};
     rotation := no_rotation |}.

(** An early riser.  Tracking starts at 06:51:50.  The sensor reports once a
    second: the phone lies still for 499 seconds and is moved from 07:00:10
    on.  The timer fires every 30 seconds. *)
Definition early_start : Date := clock 6 51 50.

Definition early_second (k : nat) : list (Env * Event) :=
  let t := early_start + 1000 * Z.of_nat k in
  (surroundings t, motion_update 0 (if Nat.ltb k 500 then still else moved))
    :: (if Nat.eqb (k mod 30) 0 then [(surroundings t, interval_fired 1)] else []).

Definition early_riser : list (Env * Event) :=
  (surroundings early_start, call_startTracking)
    :: flat_map early_second (seq 1 510).

(** An evening.  Tracking starts at 22:00:00 and the sensor stays silent. *)
Definition evening : World :=
  run [(surroundings (clock 22 0 0), call_startTracking)] (initial (clock 21 59 0)).

(** A dawn.  Tracking starts at 06:48:30 and the sensor reports one faint
    movement, below the motion threshold, at 06:50:00. *)
Definition faint : Sensor.Measurement :=
  {| Sensor.acceleration := Some {| x := 0.05; y := 0; z := 0 |};
     Sensor.rotation := Some no_rotation |}.

Definition dawn : World :=
  run [(surroundings (clock 6 48 30), call_startTracking);
       (surroundings (clock 6 50 0), motion_update 0 faint)]
      (initial (clock 6 48 0)).

(** The timer fires at 06:59:45, the phone is moved at 07:00:00 and the timer
    fires again at 07:00:15. *)
Definition dawn_ticks : list (Env * Event) :=
  [(surroundings (clock 6 59 45), interval_fired 1);
   (surroundings (clock 7 0 0), motion_update 0 moved);
   (surroundings (clock 7 0 15), interval_fired 1)].

(** The early riser just before the tick of 07:00:20. *)
Definition early_riser_awake : World :=
  run (removelast early_riser) (initial (clock 6 51 0)).

(** A night.  After the evening above the timer fires at 22:12:00 and at
    22:12:30, the phone is moved at 07:00:10 the next morning and the timer
    fires at 07:00:15. *)
Definition night_first : Env := surroundings (clock 22 12 0).

Definition night_between : list (Env * Event) :=
  [(surroundings (clock 22 12 30), interval_fired 1);
   (surroundings (clock 31 0 10), motion_update 0 moved)].

Definition night_last : Env := surroundings (clock 31 0 15).

Definition night_before_waking : World :=
  run night_between (snd (performSleepDetection night_first evening)).

(** The sensor reports [n] times, once a second, from 22:00:01 on. *)
Definition reports (n : nat) : list (Env * Sensor.Measurement) :=
  map (fun k => (surroundings (clock 22 0 (Z.of_nat k)), still)) (seq 1 n).

(** The evening after 300 reports: the buffer is full. *)
Definition evening_full : World := fold_left deliver (reports 300) evening.

(** ** The rest of [StorageService] that works on the stored sessions *)

Local Open Scope async_scope.

Definition getAllSleepSessions : Async (list SleepSession) :=
  StorageService.getSleepSessions.

(** Every session with the given [id] is filtered out and the rest is written
    back; a failure is logged and thrown again. *)
Definition deleteSleepSession (sessionId : string) : Async unit :=
  try_catch
    (sessions <- StorageService.getSleepSessions ;;
     let filteredSessions :=
       filter (fun session => negb (String.eqb (id session) sessionId)) sessions in
     AsyncStorage_setItem (write_sleep_sessions filteredSessions))
    (fun error =>
       log (console_error "Failed to delete sleep session:" error) ;;
       throw error).

Local Close Scope async_scope.

(** ** The dashboard screen ([src/app/(tabs)/index.tsx]) *)

(** The state hooks of the [Dashboard] component. *)
Module Dashboard.
Record State := {
  currentSession : option SleepSession;
  weeklyData : list SleepSession;
  isTracking : bool
}.
End Dashboard.

Definition setCurrentSession (c : option SleepSession) (ui : Dashboard.State) :=
  {| Dashboard.currentSession := c;
     Dashboard.weeklyData := Dashboard.weeklyData ui;
     Dashboard.isTracking := Dashboard.isTracking ui |}.

Definition setIsTracking (b : bool) (ui : Dashboard.State) :=
  {| Dashboard.currentSession := Dashboard.currentSession ui;
     Dashboard.weeklyData := Dashboard.weeklyData ui;
     Dashboard.isTracking := b |}.

(** A handler of the screen works on the hooks and on the world. *)
Definition Handler : Type :=
  Env -> Dashboard.State -> World -> Completion unit * Dashboard.State * World.

(** The stored flag is read; when it does not say that tracking is on,
    tracking is started, and the screen is then told that tracking is on. *)
Definition initializeSleepTracking : Handler :=
  fun env ui w =>
    match isTracking env w with
    | (Throw e, w1) => (Throw e, ui, w1)
    | (Normal trackingStatus, w1) =>
        let ui1 := setIsTracking trackingStatus ui in
        if negb trackingStatus then
          match startTracking env w1 with
          | (Throw e, w2) => (Throw e, ui1, w2)
          | (Normal _, w2) => (Normal tt, setIsTracking true ui1, w2)
          end
        else (Normal tt, ui1, w1)
    end.

(** The session that the button closes: the wake time is the first clock
    reading ([now]) and the duration comes from a second one ([now_end]). *)
Definition manuallyClosed (env : Env) (current : SleepSession) : SleepSession :=
  {| id := id current;
     bedtime := bedtime current;
     wakeTime := Some (now env);
     duration := now_end env - bedtime current;
     quality := quality current;
     isManual := isManual current;
     confidence := confidence current |}.

(** The session that the button opens: the id is the first clock reading
    ([now]) and the bedtime a second one ([now_start]). *)
Definition manuallyOpened (env : Env) : SleepSession :=
  {| id := JS.toString (now env);
     bedtime := now_start env;
     wakeTime := None;
     duration := 0;
     quality := 0;
     isManual := true;
     confidence := 1 |}.

Definition handleManualSleepToggle : Handler :=
  fun env ui w =>
    let session :=
      match Dashboard.currentSession ui with
      | Some current =>
          if isNull (wakeTime current) then manuallyClosed env current
          else manuallyOpened env
      | None => manuallyOpened env
      end in
    match StorageService.saveSleepSession session env w with
    | (Throw e, w1) => (Throw e, ui, w1)
    | (Normal _, w1) => (Normal tt, setCurrentSession (Some session) ui, w1)
    end.

(** ** [SleepAnalytics] *)

Module SleepAnalytics.

(** [slice(-a, -b)] of an array, for [b <= a]. *)
Definition slice_between {A : Type} (a b : nat) (l : list A) : list A :=
  let first := (List.length l - a)%nat in
  let last := (List.length l - b)%nat in
  firstn (last - first) (skipn first l).

(** The constructor keeps the sessions that have a wake time. *)
Definition constructor (sessions : list SleepSession) : list SleepSession :=
  filter (fun session => negb (isNull (wakeTime session))) sessions.

Definition totalDuration (sessions : list SleepSession) : Z :=
  fold_left (fun sum session => sum + duration session) sessions 0.

Definition getDurationTrend (sessions : list SleepSession) : string :=
  if Nat.ltb (List.length sessions) 3 then "Estable"%string
  else
    let recentSessions := JS.slice_last 7 sessions in
    let olderSessions := slice_between 14 7 sessions in
    if Nat.eqb (List.length olderSessions) 0 then "Estable"%string
    else
      let recentAvg :=
        (JS.ofZ (totalDuration recentSessions)
           / JS.ofZ (Z.of_nat (List.length recentSessions)))%float in
      let olderAvg :=
        (JS.ofZ (totalDuration olderSessions)
           / JS.ofZ (Z.of_nat (List.length olderSessions)))%float in
      let difference := (recentAvg - olderAvg)%float in
      let threshold := JS.ofZ (30 * 60 * 1000) in
      if JS.gt difference threshold then "Mejorando"%string
      else if JS.lt difference (- threshold)%float then "Empeorando"%string
      else "Estable"%string.

Definition getSleepDebtHours (sessions : list SleepSession) : float :=
  let targetSleep := 8 * 60 * 60 * 1000 in
  let recentSessions := JS.slice_last 7 sessions in
  if Nat.eqb (List.length recentSessions) 0 then 0%float
  else
    let totalDebt :=
      fold_left (fun debt session => debt + Z.max 0 (targetSleep - duration session))
                recentSessions 0 in
    (JS.ofZ totalDebt / JS.ofZ (1000 * 60 * 60))%float.

End SleepAnalytics.

(** A stored session has the [id] of [c]. *)
Definition same_id (c s : SleepSession) : bool := String.eqb (id s) (id c).

(** The handles that the host has given out are all below the next one. *)
Definition fresh_handles (h : Host) : Prop :=
  (forall k, In k (listeners h) -> (k < nextHandle h)%nat) /\
  (forall t, In t (intervals h) -> (fst t < nextHandle h)%nat).

(** The phone with a store that rejects reads. *)
Definition surroundings_unreadable (t : Date) : Env :=
  {| Platform_OS := ios;
     requestPermissionsAsync := granted;
     LocalTZA := fun _ => 0;
     now := t;
     now_start := t;
     now_end := t;
     getItem_rejects := true;
     setItem_rejects := false |}.

(** The same application in a browser, where the permission is never asked
    for. *)
Definition surroundings_web (t : Date) : Env :=
  {| Platform_OS := web;
     requestPermissionsAsync := denied;
     LocalTZA := fun _ => 0;
     now := t;
     now_start := t;
     now_end := t;
     getItem_rejects := false;
     setItem_rejects := false |}.

(** A nap entered by hand. *)
Definition nap : SleepSession :=
  {| id := "1700053200000";
     bedtime := clock 13 0 0;
     wakeTime := Some (clock 13 30 0);
     duration := 1800000;
     quality := 0;
     isManual := true;
     confidence := 1 |}.

(** The early riser at the end of the trace: one session is stored. *)
Definition morning : World := run early_riser (initial (clock 6 51 0)).

(** The dashboard when it is mounted. *)
Definition mounted : Dashboard.State :=
  {| Dashboard.currentSession := None;
     Dashboard.weeklyData := [];
     Dashboard.isTracking := false |}.

(** A full night as the detector stores it. *)
Definition full_night : SleepSession :=
  {| id := "1700086320000";
     bedtime := clock 22 15 0;
     wakeTime := Some (clock 31 0 15);
     duration := 31515000;
     quality := 45;
     isManual := false;
     confidence := 0.9%float |}.

(** * Properties *)

(** ** Numbers *)

Lemma Prim2SF_start_threshold :
  Prim2SF SLEEP_CONFIDENCE_THRESHOLD = S754_finite false 7205759403792794 (-53).
Proof. vm_compute. reflexivity. Qed.

Lemma Prim2SF_end_threshold :
  Prim2SF 0.3%float = S754_finite false 5404319552844595 (-54).
Proof. vm_compute. reflexivity. Qed.

Lemma SFltb_asym (a b : spec_float) : SFltb a b = true -> SFltb b a = false.
Proof.
  cbv [SFltb SFcompare].
  destruct a as [s | s | | s m e], b as [s' | s' | | s' m' e'];
    try destruct s; try destruct s'; try congruence;
    rewrite (Z.compare_antisym e e');
    change (PosDef.Pos.compare_cont Eq m' m) with (Pos.compare_cont Eq m' m);
    change (PosDef.Pos.compare_cont Eq m m') with (Pos.compare_cont Eq m m');
    pose proof (Pos.compare_cont_antisym m m' Eq) as H; cbn [CompOpp] in H;
    rewrite <- H;
    destruct (e ?= e'); cbn [CompOpp]; try congruence;
    destruct (Pos.compare_cont Eq m m'); cbn [CompOpp]; congruence.
Qed.

Lemma ltb_asym (a b : float) : (a <? b)%float = true -> (b <? a)%float = false.
Proof. rewrite !FloatAxioms.ltb_spec. apply SFltb_asym. Qed.

(** [Math.min(a, 1)] is never above 1. *)
Lemma Math_min_one (a : float) : JS.gt (JS.Math_min a 1) 1 = false.
Proof.
  unfold JS.gt, JS.Math_min.
  destruct (is_nan a || is_nan 1); [reflexivity |].
  destruct (a <? 1)%float eqn:Hlt; [apply ltb_asym, Hlt |].
  destruct (1 <? a)%float eqn:Hgt; [reflexivity |].
  destruct (get_sign a); [exact Hgt | reflexivity].
Qed.

(** The hysteresis gap: nothing above the start threshold is below the end
    threshold. *)
Lemma above_start_not_below_end (p : float) :
  JS.gt p SLEEP_CONFIDENCE_THRESHOLD = true -> JS.lt p 0.3 = false.
Proof.
  unfold JS.gt, JS.lt.
  rewrite !FloatAxioms.ltb_spec, Prim2SF_start_threshold, Prim2SF_end_threshold.
  cbv [SFltb SFcompare].
  destruct (Prim2SF p) as [s | s | | s m e]; try destruct s; try congruence.
  destruct (Z.compare_spec (-53) e), (Z.compare_spec e (-54));
    try lia; congruence.
Qed.

(** ** One evaluation tick, case by case *)

Ltac run_async :=
  unfold performSleepDetection, startSleepSession, endSleepSession,
    StorageService.saveSleepSession, StorageService.getSleepSessions,
    AsyncStorage_getItem, AsyncStorage_setItem, try_catch, bind, ask, read_this,
    update_this, log, when, ret, throw, tickProbability in *;
  cbn [this host disk console set_this set_console set_disk currentSession
       set_currentSession isNull negb andb fst snd] in *.

Ltac steady :=
  cbn [this host disk console set_this set_console set_disk set_host
       currentSession set_currentSession isNull negb andb fst snd].

Lemma tick_start (env : Env) (w : World) :
  currentSession (this w) = None ->
  JS.gt (tickProbability env w) SLEEP_CONFIDENCE_THRESHOLD = true ->
  performSleepDetection env w =
    (Normal tt,
     let s := openedSession env (this w) (tickProbability env w) in
     {| this := set_currentSession (Some s) (this w);
        host := host w;
        disk := disk w;
        console := console w ++ [console_log "Sleep session started:" (Some s)] |}).
Proof.
  intros Hnone Hgt.
  pose proof (above_start_not_below_end _ Hgt) as Hlt.
  run_async. rewrite Hnone. steady. rewrite Hgt. steady.
  rewrite Hlt. reflexivity.
Qed.

Lemma tick_idle (env : Env) (w : World) :
  currentSession (this w) = None ->
  JS.gt (tickProbability env w) SLEEP_CONFIDENCE_THRESHOLD = false ->
  performSleepDetection env w = (Normal tt, w).
Proof.
  intros Hnone Hgt. run_async. rewrite Hnone. steady.
  rewrite Hgt. steady. rewrite Hnone. reflexivity.
Qed.

Lemma tick_asleep (env : Env) (w : World) (s : SleepSession) :
  currentSession (this w) = Some s ->
  JS.lt (tickProbability env w) 0.3 = false ->
  performSleepDetection env w = (Normal tt, w).
Proof.
  intros Hsome Hlt. run_async. rewrite Hsome. steady.
  rewrite Hsome. steady. rewrite Hlt. reflexivity.
Qed.

Lemma tick_wake (env : Env) (w : World) (s : SleepSession) :
  currentSession (this w) = Some s ->
  JS.lt (tickProbability env w) 0.3 = true ->
  setItem_rejects env = false ->
  performSleepDetection env w =
    (Normal tt,
     let c := closedSession env (this w) s in
     {| this := set_currentSession None (this w);
        host := host w;
        disk := write_sleep_sessions (upsert c (stored env (disk w))) (disk w);
        console := (console w ++ readLog env)
                     ++ [console_log "Sleep session ended:" (Some c)] |}).
Proof.
  intros Hsome Hlt Hset. run_async. rewrite Hsome. steady.
  rewrite Hsome. steady. rewrite Hlt, Hsome.
  unfold stored, readLog, upsert, closedSession.
  destruct (getItem_rejects env); steady; rewrite Hset;
    [| destruct (sleep_sessions (disk w)) ];
    steady; rewrite ?app_nil_r; reflexivity.
Qed.

Lemma tick_wake_fails (env : Env) (w : World) (s : SleepSession) :
  currentSession (this w) = Some s ->
  JS.lt (tickProbability env w) 0.3 = true ->
  setItem_rejects env = true ->
  performSleepDetection env w =
    (Throw (mkError "AsyncStorage.setItem"),
     set_console
       ((console w ++ readLog env)
          ++ [console_error "Failed to save sleep session:"
                (mkError "AsyncStorage.setItem")]) w).
Proof.
  intros Hsome Hlt Hset. run_async. rewrite Hsome. steady.
  rewrite Hsome. steady. rewrite Hlt, Hsome.
  unfold readLog.
  destruct (getItem_rejects env); steady; rewrite Hset;
    [| destruct (sleep_sessions (disk w)) ];
    steady; rewrite ?app_nil_r; destruct w; reflexivity.
Qed.

(** ** The transitions that the console reports *)

Lemma transitions_app (a b : list LogLine) :
  transitions (a ++ b) = transitions a ++ transitions b.
Proof.
  induction a as [| l a IH]; [reflexivity |].
  destruct l as [msg [s |] | msg e]; cbn [app transitions]; auto.
  destruct (String.eqb msg "Sleep session started:");
    [| destruct (String.eqb msg "Sleep session ended:")];
    cbn [app]; rewrite IH; reflexivity.
Qed.

Lemma transitions_started (s : SleepSession) :
  transitions [console_log "Sleep session started:" (Some s)] = [started s].
Proof. reflexivity. Qed.

Lemma transitions_ended (c : SleepSession) :
  transitions [console_log "Sleep session ended:" (Some c)] = [ended c].
Proof. reflexivity. Qed.

Lemma transitions_readLog (env : Env) : transitions (readLog env) = [].
Proof. unfold readLog. destruct (getItem_rejects env); reflexivity. Qed.


(** ** The session state machine *)

(** C10. One tick makes at most one transition: it reports nothing and keeps
    the current session, or it opens a session from the idle state, or it
    closes the open session; and a probability above the start threshold is
    never below the end threshold. *)
Theorem tick_single_transition (env : Env) (w : World) :
  let w' := snd (performSleepDetection env w) in
  (exists new,
     console w' = console w ++ new /\
     ((transitions new = [] /\
       currentSession (this w') = currentSession (this w))
      \/ (exists s, transitions new = [started s] /\
                    currentSession (this w) = None /\
                    currentSession (this w') = Some s)
      \/ (exists s c, transitions new = [ended c] /\
                      currentSession (this w) = Some s /\
                      currentSession (this w') = None)))
  /\ JS.gt (tickProbability env w) SLEEP_CONFIDENCE_THRESHOLD
       && JS.lt (tickProbability env w) 0.3 = false.
Proof.
  split.
  - destruct (currentSession (this w)) as [s |] eqn:Hcur.
    + destruct (JS.lt (tickProbability env w) 0.3) eqn:Hlt.
      * destruct (setItem_rejects env) eqn:Hset.
        -- rewrite (tick_wake_fails env w s Hcur Hlt Hset). cbn [snd].
           eexists. split.
           ++ cbn [console set_console]. rewrite <- app_assoc. reflexivity.
           ++ left. split.
              ** rewrite transitions_app, transitions_readLog. reflexivity.
              ** destruct w; exact Hcur.
        -- rewrite (tick_wake env w s Hcur Hlt Hset). cbn [snd].
           eexists. split.
           ++ cbn [console]. rewrite <- app_assoc. reflexivity.
           ++ right. right. exists s. eexists. split.
              ** rewrite transitions_app, transitions_readLog. reflexivity.
              ** split; reflexivity.
      * rewrite (tick_asleep env w s Hcur Hlt). cbn [snd].
        exists []. rewrite app_nil_r. split; [reflexivity |].
        left. split; [reflexivity | exact Hcur].
    + destruct (JS.gt (tickProbability env w) SLEEP_CONFIDENCE_THRESHOLD) eqn:Hgt.
      * rewrite (tick_start env w Hcur Hgt). cbn [snd].
        eexists. split; [cbn [console]; reflexivity |].
        right. left. eexists. split; [reflexivity |].
        split; reflexivity.
      * rewrite (tick_idle env w Hcur Hgt). cbn [snd].
        exists []. rewrite app_nil_r. split; [reflexivity |].
        left. split; [reflexivity | exact Hcur].
  - destruct (JS.gt (tickProbability env w) SLEEP_CONFIDENCE_THRESHOLD) eqn:Hgt;
      [| reflexivity].
    rewrite (above_start_not_below_end _ Hgt). reflexivity.
Qed.

(** C2 (as amended). A tick that finds no open session and computes a
    probability strictly above the start threshold 0.8 opens a session whose
    bedtime is the last activity plus 15 minutes, whose confidence is that
    probability and which is not manual. *)
Theorem tick_opens_session (env : Env) (w : World) :
  currentSession (this w) = None ->
  JS.gt (tickProbability env w) SLEEP_CONFIDENCE_THRESHOLD = true ->
  exists s,
    currentSession (this (snd (performSleepDetection env w))) = Some s /\
    bedtime s = lastActivity (this w) + 15 * 60 * 1000 /\
    confidence s = tickProbability env w /\
    isManual s = false /\
    wakeTime s = None /\
    duration s = 0.
Proof.
  intros Hnone Hgt. rewrite (tick_start env w Hnone Hgt).
  eexists. split; [reflexivity |]. repeat split.
Qed.

Lemma tick_opens_session_witness :
  exists s,
    currentSession
      (this (snd (performSleepDetection (surroundings (clock 22 12 0)) evening)))
      = Some s /\
    bedtime s = lastActivity (this evening) + 15 * 60 * 1000 /\
    confidence s = tickProbability (surroundings (clock 22 12 0)) evening /\
    isManual s = false /\
    wakeTime s = None /\
    duration s = 0.
Proof.
  apply tick_opens_session; vm_compute; reflexivity.
Defined.

(** C2 (as stated) fails at the threshold itself.  At 22:11:15, 675 seconds
    after the last activity and with an empty buffer, the probability is
    exactly 0.8: it is at or above the threshold, and the tick opens no
    session. *)
Lemma start_threshold_is_exclusive :
  let env := surroundings (clock 22 11 15) in
  currentSession (this evening) = None /\
  tickProbability env evening = 0.8%float /\
  JS.ge (tickProbability env evening) SLEEP_CONFIDENCE_THRESHOLD = true /\
  currentSession (this (snd (performSleepDetection env evening))) = None /\
  step evening (env, interval_fired 1) = evening.
Proof. vm_compute. repeat split. Qed.

(** ** What the listener touches *)

Lemma listener_inactive (env : Env) (d : Sensor.Measurement) (w : World) :
  _isServiceActive (this w) = false ->
  motionListener d env w = (Normal tt, w).
Proof.
  intro H. unfold motionListener, bind, read_this, ret. rewrite H. reflexivity.
Qed.

Lemma listener_active (env : Env) (d : Sensor.Measurement) (w : World) :
  _isServiceActive (this w) = true ->
  motionListener d env w =
    (Normal tt,
     {| this :=
          {| _isServiceActive := true;
             motionSubscription := motionSubscription (this w);
             detectionInterval := detectionInterval (this w);
             lastActivity :=
               if hasSignificantMotion (sample env d) then now env
               else lastActivity (this w);
             motionBuffer := record (sample env d) (motionBuffer (this w));
             currentSession := currentSession (this w) |};
        host := host w;
        disk := disk w;
        console := console w |}).
Proof.
  intro H.
  unfold motionListener, bind, read_this, ask, update_this, when, ret, record.
  rewrite H. cbn [negb this set_this motionBuffer set_motionBuffer].
  fold (sample env d).
  destruct (Nat.ltb 300 (List.length (JS.push (motionBuffer (this w)) (sample env d))));
    destruct (hasSignificantMotion (sample env d));
    cbv [set_this set_motionBuffer set_lastActivity this host disk console
         _isServiceActive motionSubscription detectionInterval lastActivity
         motionBuffer currentSession];
    destruct w as [[a ms di la mb cs] h dk c]; cbn in H; subst a; reflexivity.
Qed.

Lemma listener_frame (env : Env) (d : Sensor.Measurement) (w : World) :
  let w' := snd (motionListener d env w) in
  currentSession (this w') = currentSession (this w) /\
  host w' = host w /\ disk w' = disk w /\ console w' = console w.
Proof.
  destruct (_isServiceActive (this w)) eqn:H.
  - rewrite (listener_active env d w H). repeat split.
  - rewrite (listener_inactive env d w H). repeat split.
Qed.

(** While the machine stays asleep, the open session, the store and the
    console are as they were. *)
Lemma stays_asleep_run (evs : list (Env * Event)) :
  forall (w : World) (s : SleepSession),
    currentSession (this w) = Some s ->
    stays_asleep evs w ->
    currentSession (this (run evs w)) = Some s /\
    disk (run evs w) = disk w /\
    console (run evs w) = console w.
Proof.
  induction evs as [| [env ev] r IH]; intros w s Hcur Hstay.
  - repeat split. exact Hcur.
  - cbn [stays_asleep] in Hstay. destruct Hstay as [Hev Hrest].
    assert (Hstep : currentSession (this (step w (env, ev))) = Some s /\
                    disk (step w (env, ev)) = disk w /\
                    console (step w (env, ev)) = console w).
    { destruct ev as [| | h d | h]; try contradiction; cbn [step].
      - destruct (existsb (Nat.eqb h) (listeners (host w))); [| auto].
        destruct (listener_frame env d w) as (Hc & _ & Hd & Hl).
        rewrite Hc, Hd, Hl. auto.
      - destruct (existsb (fun t => Nat.eqb h (fst t)) (intervals (host w)));
          [| auto].
        rewrite (tick_asleep env w s Hcur Hev). auto. }
    destruct Hstep as (Hc & Hd & Hl).
    destruct (IH (step w (env, ev)) s Hc Hrest) as (Hc' & Hd' & Hl').
    change (run ((env, ev) :: r) w) with (run r (step w (env, ev))).
    rewrite Hc', Hd', Hl', Hd, Hl. auto.
Qed.

Lemma upsert_In (c : SleepSession) (l : list SleepSession) : In c (upsert c l).
Proof.
  unfold upsert, JS.push.
  induction l as [| a r IH]; cbn [JS.findIndex]; [left; reflexivity |].
  destruct (String.eqb (id a) (id c)); [left; reflexivity |].
  destruct (JS.findIndex (fun s => String.eqb (id s) (id c)) r) as [i |];
    cbn [option_map JS.assign app]; right; exact IH.
Qed.

(** C3 (as amended). A tick that finds an open session and computes a
    probability strictly below the end threshold 0.3 finalizes it, provided
    the store accepts the write: the wake time is the clock reading, the
    duration is exactly that reading minus the bedtime, the finalized session
    is in the stored list and the current session becomes null.  And in a
    sequence of ticks and measurements that starts without a session, whose
    first tick computes a probability strictly above 0.8, whose later ticks do
    not go below 0.3 until the last one does, exactly one session is opened
    (by the first tick) and finalized (by the last). *)
Theorem tick_closes_session :
  (forall (env : Env) (w : World) (s : SleepSession),
     currentSession (this w) = Some s ->
     JS.lt (tickProbability env w) 0.3 = true ->
     setItem_rejects env = false ->
     let w' := snd (performSleepDetection env w) in
     let c := closedSession env (this w) s in
     wakeTime c = Some (now_end env) /\
     duration c = now_end env - bedtime s /\
     sleep_sessions (disk w') = Some (upsert c (stored env (disk w))) /\
     In c (upsert c (stored env (disk w))) /\
     currentSession (this w') = None)
  /\
  (forall (w0 : World) (first : Env) (between : list (Env * Event)) (last : Env),
     currentSession (this w0) = None ->
     JS.gt (tickProbability first w0) SLEEP_CONFIDENCE_THRESHOLD = true ->
     let w1 := snd (performSleepDetection first w0) in
     stays_asleep between w1 ->
     let wm := run between w1 in
     JS.lt (tickProbability last wm) 0.3 = true ->
     setItem_rejects last = false ->
     let wk := snd (performSleepDetection last wm) in
     exists s c,
       transitions (console wk) = transitions (console w0) ++ [started s; ended c] /\
       bedtime s = lastActivity (this w0) + INACTIVITY_THRESHOLD /\
       id c = id s /\
       bedtime c = bedtime s /\
       wakeTime c = Some (now_end last) /\
       duration c = now_end last - bedtime s /\
       sleep_sessions (disk wk) = Some (upsert c (stored last (disk w0))) /\
       currentSession (this wk) = None).
Proof.
  split.
  - intros env w s Hcur Hlt Hset w' c. subst w'.
    rewrite (tick_wake env w s Hcur Hlt Hset). cbn [snd this disk].
    repeat split. apply upsert_In.
  - intros w0 first between last Hnone Hgt w1 Hstay wm Hlt Hset wk.
    subst wk wm. revert Hstay Hlt. subst w1.
    rewrite (tick_start first w0 Hnone Hgt). cbn [snd].
    set (s := openedSession first (this w0) (tickProbability first w0)).
    set (w1 := {| this := set_currentSession (Some s) (this w0);
                  host := host w0; disk := disk w0;
                  console := console w0 ++ [console_log "Sleep session started:" (Some s)] |}).
    intros Hstay Hlt.
    destruct (stays_asleep_run between w1 s eq_refl Hstay) as (Hc & Hd & Hl).
    rewrite (tick_wake last (run between w1) s Hc Hlt Hset). cbn [snd this disk console].
    exists s, (closedSession last (this (run between w1)) s).
    rewrite Hl, Hd. cbn [console disk w1].
    rewrite !transitions_app, transitions_readLog, transitions_started,
      transitions_ended, app_nil_r, <- app_assoc.
    repeat split.
Qed.

Lemma tick_closes_session_witness :
  (exists s,
     currentSession (this night_before_waking) = Some s /\
     JS.lt (tickProbability night_last night_before_waking) 0.3 = true /\
     setItem_rejects night_last = false /\
     let w' := snd (performSleepDetection night_last night_before_waking) in
     let c := closedSession night_last (this night_before_waking) s in
     wakeTime c = Some (now_end night_last) /\
     duration c = now_end night_last - bedtime s /\
     sleep_sessions (disk w')
       = Some (upsert c (stored night_last (disk night_before_waking))) /\
     In c (upsert c (stored night_last (disk night_before_waking))) /\
     currentSession (this w') = None)
  /\
  (currentSession (this evening) = None /\
   JS.gt (tickProbability night_first evening) SLEEP_CONFIDENCE_THRESHOLD = true /\
   stays_asleep night_between (snd (performSleepDetection night_first evening)) /\
   exists s c,
     transitions (console (snd (performSleepDetection night_last night_before_waking)))
       = transitions (console evening) ++ [started s; ended c] /\
     bedtime s = lastActivity (this evening) + INACTIVITY_THRESHOLD /\
     id c = id s /\
     bedtime c = bedtime s /\
     wakeTime c = Some (now_end night_last) /\
     duration c = now_end night_last - bedtime s /\
     sleep_sessions (disk (snd (performSleepDetection night_last night_before_waking)))
       = Some (upsert c (stored night_last (disk evening))) /\
     currentSession (this (snd (performSleepDetection night_last night_before_waking)))
       = None).
Proof.
  destruct tick_closes_session as [one_tick scenario].
  split.
  - eexists. split; [vm_compute; reflexivity |].
    split; [vm_compute; reflexivity |].
    split; [reflexivity |].
    apply one_tick; vm_compute; reflexivity.
  - split; [reflexivity |].
    split; [vm_compute; reflexivity |].
    split; [vm_compute; repeat split |].
    apply (scenario evening night_first night_between night_last);
      vm_compute; repeat split.
Defined.

(** C3 (as stated) fails in two ways.  At dawn the tick of 06:59:45 computes
    exactly 0.8, which is at or above the start threshold, and the tick of
    07:00:15 computes less than 0.3; yet no session is opened or finalized.
    And when the store rejects the write, a tick that finds a session open
    and a probability below 0.3 throws, leaves the session open and stores
    nothing. *)
Lemma session_scenario_fails :
  (currentSession (this dawn) = None /\
   JS.ge (tickProbability (surroundings (clock 6 59 45)) dawn)
         SLEEP_CONFIDENCE_THRESHOLD = true /\
   JS.lt (tickProbability (surroundings (clock 7 0 15))
                          (run (removelast dawn_ticks) dawn)) 0.3 = true /\
   transitions (console (run dawn_ticks dawn)) = [] /\
   sleep_sessions (disk (run dawn_ticks dawn)) = None /\
   currentSession (this (run dawn_ticks dawn)) = None)
  /\
  (let env := surroundings_full_disk (clock 7 0 20) in
   let result := performSleepDetection env early_riser_awake in
   JS.lt (tickProbability env early_riser_awake) 0.3 = true /\
   currentSession (this early_riser_awake) <> None /\
   fst result = Throw (mkError "AsyncStorage.setItem") /\
   currentSession (this (snd result)) = currentSession (this early_riser_awake) /\
   sleep_sessions (disk (snd result)) = None).
Proof. vm_compute. repeat split. discriminate. Qed.

(** C5. The early riser's session is opened by the tick of 06:59:50, when the
    phone has been still for 8 minutes, with bedtime 07:06:50; the tick of
    07:00:20 finalizes it with a duration of minus 390 seconds. *)
Theorem early_riser_negative_duration :
  let w := run early_riser (initial (clock 6 51 0)) in
  map bedtime (stored (surroundings 0) (disk w)) = [clock 7 6 50] /\
  map wakeTime (stored (surroundings 0) (disk w)) = [Some (clock 7 0 20)] /\
  map duration (stored (surroundings 0) (disk w)) = [-390000] /\
  map isManual (stored (surroundings 0) (disk w)) = [false] /\
  List.length (transitions (console w)) = 2%nat /\
  currentSession (this w) = None.
Proof. vm_compute. repeat split. Qed.

(** C1. The sleep probability never exceeds 1, whatever the inactivity and
    the clock, but it is not bounded below.  Five minutes after tracking
    started at noon the clock is set back by twenty minutes; the inactivity is
    then minus 15 minutes and the probability, which is only capped from
    above, is -0.2. *)
Theorem probability_capped_above_only :
  (forall (env : Env) (self : SleepDetectionService) (inactivityDuration : Z)
          (currentTime : Date),
     JS.gt (calculateSleepProbability env self inactivityDuration currentTime) 1
       = false)
  /\
  (let w := run [(surroundings (clock 12 5 0), call_startTracking)]
                (initial (clock 12 0 0)) in
   let env := surroundings (clock 11 50 0) in
   now env - lastActivity (this w) = -900000 /\
   calculateSleepProbability env (this w) (-900000) (now env) = (-0.2)%float /\
   JS.ge (calculateSleepProbability env (this w) (-900000) (now env)) 0 = false /\
   DetectionState.sleepProbability (getDetectionState env (this w)) = (-0.2)%float /\
   tickProbability env w = (-0.2)%float).
Proof.
  split.
  - intros env self inactivityDuration currentTime.
    unfold calculateSleepProbability. cbv zeta. apply Math_min_one.
  - vm_compute. repeat split.
Qed.

(** ** The quality score *)

Lemma hour_in_ms : JS.ofZ (1000 * 60 * 60) = 3600000%float.
Proof. reflexivity. Qed.

(** C4. The quality score of a finalized duration is the rounded, clamped mean
    of the duration band score and the motion quality, as the specification
    words it; 8 hours at activity level 0 score 95 and 4 hours at activity
    level 1 score 20. *)
Theorem quality_score_formula (self : SleepDetectionService) :
  (forall durationMs : Z,
     calculateSleepQuality self durationMs
       = spec_qualityScore durationMs (getRecentMotionLevel self))
  /\ (getRecentMotionLevel self = 0%float ->
      calculateSleepQuality self (8 * 3600000) = 95%float)
  /\ (getRecentMotionLevel self = 1%float ->
      calculateSleepQuality self (4 * 3600000) = 20%float).
Proof.
  assert (formula : forall durationMs : Z,
             calculateSleepQuality self durationMs
               = spec_qualityScore durationMs (getRecentMotionLevel self)).
  { intro durationMs.
    unfold calculateSleepQuality, spec_qualityScore, calculateMotionQuality, spec_clamp.
    rewrite hour_in_ms.
    set (hours := (JS.ofZ durationMs / 3600000)%float).
    cbv [spec_bands spec_durationBase JS.ge JS.le].
    destruct ((7 <=? hours)%float && (hours <=? 9)%float);
      destruct ((6 <=? hours)%float && (hours <=? 10)%float);
      destruct ((5 <=? hours)%float && (hours <=? 11)%float); reflexivity. }
  split; [exact formula |].
  split; intro level; rewrite formula, level; vm_compute; reflexivity.
Qed.

Lemma quality_score_formula_witness :
  (getRecentMotionLevel (this evening) = 0%float /\
   calculateSleepQuality (this evening) (8 * 3600000) = 95%float)
  /\
  (getRecentMotionLevel (set_motionBuffer [loud] (this evening)) = 1%float /\
   calculateSleepQuality (set_motionBuffer [loud] (this evening)) (4 * 3600000)
     = 20%float).
Proof.
  split; (split; [reflexivity |]).
  - apply (proj1 (proj2 (quality_score_formula (this evening)))). reflexivity.
  - apply (proj2 (proj2 (quality_score_formula
                           (set_motionBuffer [loud] (this evening))))).
    reflexivity.
Defined.

(** The bands are inclusive at both ends and are tried from the narrowest. *)
Lemma duration_bands_at_the_bounds :
  map (fun ms => spec_durationBase spec_bands (JS.ofZ ms / 3600000)%float)
      [ 5 * 3600000 - 1; 5 * 3600000; 6 * 3600000 - 1; 6 * 3600000;
        7 * 3600000 - 1; 7 * 3600000; 9 * 3600000; 9 * 3600000 + 1;
        10 * 3600000; 10 * 3600000 + 1; 11 * 3600000; 11 * 3600000 + 1 ]
  = [ 40; 60; 60; 75; 75; 90; 90; 75; 75; 60; 60; 40 ]%float.
Proof. reflexivity. Qed.

(** ** The motion buffer *)

Section Slices.

Context {A : Type}.

Lemma slice_last_short (n : nat) (l : list A) :
  (List.length l <= n)%nat -> JS.slice_last n l = l.
Proof.
  intro H. unfold JS.slice_last.
  replace (List.length l - n)%nat with O by lia. reflexivity.
Qed.

Lemma slice_last_length (n : nat) (l : list A) :
  (List.length (JS.slice_last n l) <= n)%nat.
Proof. unfold JS.slice_last. rewrite length_skipn. lia. Qed.

Lemma slice_last_app (n : nat) (a l : list A) :
  JS.slice_last n (JS.slice_last n a ++ l) = JS.slice_last n (a ++ l).
Proof.
  unfold JS.slice_last.
  rewrite !length_app, length_skipn, !skipn_app, skipn_skipn, length_skipn.
  f_equal; f_equal; lia.
Qed.

Lemma shift_push (a : A) (l : list A) (x : A) :
  JS.shift (JS.push (a :: l) x) = l ++ [x].
Proof. reflexivity. Qed.

End Slices.

Lemma record_slice (motion : DeviceMotionData) (buffer : list DeviceMotionData) :
  (List.length buffer <= 300)%nat ->
  record motion buffer = JS.slice_last 300 (buffer ++ [motion]).
Proof.
  intro H. unfold record, JS.push.
  destruct (Nat.ltb_spec 300 (List.length (buffer ++ [motion]))) as [Hover | Hfits].
  - rewrite length_app in Hover. cbn [List.length] in Hover.
    unfold JS.slice_last, JS.shift. rewrite length_app. cbn [List.length].
    replace (List.length buffer + 1 - 300)%nat with 1%nat by lia.
    destruct buffer; reflexivity.
  - symmetry. apply slice_last_short. exact Hfits.
Qed.

Lemma record_length (motion : DeviceMotionData) (buffer : list DeviceMotionData) :
  (List.length buffer <= 300)%nat ->
  (List.length (record motion buffer) <= 300)%nat.
Proof. intro H. rewrite record_slice by exact H. apply slice_last_length. Qed.

Lemma deliver_active (w : World) (d : Env * Sensor.Measurement) :
  _isServiceActive (this w) = true ->
  _isServiceActive (this (deliver w d)) = true /\
  motionBuffer (this (deliver w d))
    = record (sample (fst d) (snd d)) (motionBuffer (this w)).
Proof.
  intro H. unfold deliver. rewrite (listener_active (fst d) (snd d) w H).
  split; reflexivity.
Qed.

Lemma deliveries_slice (ds : list (Env * Sensor.Measurement)) :
  forall w : World,
    _isServiceActive (this w) = true ->
    (List.length (motionBuffer (this w)) <= 300)%nat ->
    motionBuffer (this (fold_left deliver ds w))
      = JS.slice_last 300
          (motionBuffer (this w) ++ map (fun d => sample (fst d) (snd d)) ds).
Proof.
  induction ds as [| d ds IH]; intros w Hactive Hlen.
  - cbn [fold_left map]. rewrite app_nil_r.
    symmetry. apply slice_last_short. exact Hlen.
  - destruct (deliver_active w d Hactive) as [Hactive' Hbuffer].
    cbn [fold_left map]. rewrite IH.
    + rewrite Hbuffer, record_slice by exact Hlen.
      rewrite slice_last_app, <- app_assoc. reflexivity.
    + exact Hactive'.
    + rewrite Hbuffer. apply record_length. exact Hlen.
Qed.

(** ** The tracking lifecycle *)

Ltac run_lifecycle :=
  unfold startTracking, stopTracking, startMotionMonitoring,
    startPeriodicDetection, DeviceMotion_setUpdateInterval,
    DeviceMotion_addListener, subscription_remove, setInterval, clearInterval,
    AsyncStorage_setItem, try_catch, bind, ask, read_this, update_this, log,
    when, ret, throw;
  cbn [this host disk console set_this set_console set_disk set_host
       _isServiceActive motionSubscription detectionInterval lastActivity
       motionBuffer currentSession set_isServiceActive set_motionSubscription
       set_detectionInterval set_lastActivity negb fst snd].

Lemma startTracking_active (env : Env) (w : World) :
  _isServiceActive (this w) = true -> startTracking env w = (Normal tt, w).
Proof.
  intro H. unfold startTracking, bind, read_this, ret. rewrite H. reflexivity.
Qed.

Lemma startTracking_denied (env : Env) (w : World) :
  _isServiceActive (this w) = false ->
  is_web (Platform_OS env) = false ->
  is_granted (requestPermissionsAsync env) = false ->
  startTracking env w =
    (Normal tt,
     set_console
       (console w ++ [console_error "Failed to start sleep tracking:"
                        (mkError "Motion permissions not granted")]) w).
Proof.
  intros Hidle Hnative Hdenied. run_lifecycle.
  rewrite Hidle, Hnative, Hdenied. cbn [negb].
  destruct w as [[a ms di la mb cs] h dk c]. cbn in Hidle. subst a. reflexivity.
Qed.

Lemma startTracking_frame (env : Env) (w : World) :
  motionBuffer (this (snd (startTracking env w))) = motionBuffer (this w) /\
  currentSession (this (snd (startTracking env w))) = currentSession (this w).
Proof.
  run_lifecycle.
  destruct (_isServiceActive (this w)); [split; reflexivity |].
  repeat (cbv beta iota;
          match goal with
          | |- context [if ?b then _ else _] => destruct b
          end);
    split; reflexivity.
Qed.

Lemma stopTracking_frame (env : Env) (w : World) :
  _isServiceActive (this (snd (stopTracking env w))) = false /\
  motionBuffer (this (snd (stopTracking env w))) = motionBuffer (this w) /\
  currentSession (this (snd (stopTracking env w))) = currentSession (this w) /\
  sleep_sessions (disk (snd (stopTracking env w))) = sleep_sessions (disk w) /\
  transitions (console (snd (stopTracking env w))) = transitions (console w).
Proof.
  run_lifecycle.
  destruct w as [[a [ms |] [di |] la mb cs] h dk c]; cbn;
    destruct (setItem_rejects env); cbn;
    rewrite ?transitions_app, ?app_nil_r; repeat split.
Qed.

Lemma tick_frame (env : Env) (w : World) :
  motionBuffer (this (snd (performSleepDetection env w))) = motionBuffer (this w).
Proof.
  destruct (currentSession (this w)) as [s |] eqn:Hcur.
  - destruct (JS.lt (tickProbability env w) 0.3) eqn:Hlt.
    + destruct (setItem_rejects env) eqn:Hset.
      * rewrite (tick_wake_fails env w s Hcur Hlt Hset). reflexivity.
      * rewrite (tick_wake env w s Hcur Hlt Hset). reflexivity.
    + rewrite (tick_asleep env w s Hcur Hlt). reflexivity.
  - destruct (JS.gt (tickProbability env w) SLEEP_CONFIDENCE_THRESHOLD) eqn:Hgt.
    + rewrite (tick_start env w Hcur Hgt). reflexivity.
    + rewrite (tick_idle env w Hcur Hgt). reflexivity.
Qed.

Lemma listener_length (env : Env) (d : Sensor.Measurement) (w : World) :
  (List.length (motionBuffer (this w)) <= 300)%nat ->
  (List.length (motionBuffer (this (snd (motionListener d env w)))) <= 300)%nat.
Proof.
  intro H. destruct (_isServiceActive (this w)) eqn:Hactive.
  - rewrite (listener_active env d w Hactive). cbn [snd this motionBuffer].
    apply record_length. exact H.
  - rewrite (listener_inactive env d w Hactive). exact H.
Qed.

Lemma step_length (w : World) (ee : Env * Event) :
  (List.length (motionBuffer (this w)) <= 300)%nat ->
  (List.length (motionBuffer (this (step w ee))) <= 300)%nat.
Proof.
  intro H. destruct ee as [env [| | h d | h]]; cbn [step].
  - rewrite (proj1 (startTracking_frame env w)). exact H.
  - rewrite (proj1 (proj2 (stopTracking_frame env w))). exact H.
  - destruct (existsb (Nat.eqb h) (listeners (host w))); [| exact H].
    apply listener_length. exact H.
  - destruct (existsb (fun t => Nat.eqb h (fst t)) (intervals (host w)));
      [| exact H].
    rewrite tick_frame. exact H.
Qed.

Lemma run_length (evs : list (Env * Event)) :
  forall w : World,
    (List.length (motionBuffer (this w)) <= 300)%nat ->
    (List.length (motionBuffer (this (run evs w))) <= 300)%nat.
Proof.
  induction evs as [| ee evs IH]; intros w H; [exact H |].
  change (run (ee :: evs) w) with (run evs (step w ee)).
  apply IH, step_length, H.
Qed.

(** C6. The motion buffer never holds more than 300 samples, whatever happens
    to the service from the moment it is constructed.  Starting from an empty
    buffer, after any number of deliveries to the active listener the buffer
    is the last 300 samples in the order of arrival.  A delivery to a full
    buffer removes exactly its oldest sample and appends the new one; a
    delivery to a buffer that is not full only appends. *)
Theorem motion_buffer_fifo :
  (forall (evs : list (Env * Event)) (t0 : Date),
     (List.length (motionBuffer (this (run evs (initial t0)))) <= 300)%nat)
  /\
  (forall (ds : list (Env * Sensor.Measurement)) (w : World),
     _isServiceActive (this w) = true ->
     motionBuffer (this w) = [] ->
     (List.length (motionBuffer (this (fold_left deliver ds w))) <= 300)%nat /\
     motionBuffer (this (fold_left deliver ds w))
       = JS.slice_last 300 (map (fun d => sample (fst d) (snd d)) ds))
  /\
  (forall (env : Env) (d : Sensor.Measurement) (w : World)
          (oldest : DeviceMotionData) (rest : list DeviceMotionData),
     _isServiceActive (this w) = true ->
     motionBuffer (this w) = oldest :: rest ->
     List.length (oldest :: rest) = 300%nat ->
     motionBuffer (this (deliver w (env, d))) = rest ++ [sample env d])
  /\
  (forall (env : Env) (d : Sensor.Measurement) (w : World),
     _isServiceActive (this w) = true ->
     (List.length (motionBuffer (this w)) < 300)%nat ->
     motionBuffer (this (deliver w (env, d)))
       = motionBuffer (this w) ++ [sample env d]).
Proof.
  split; [| split; [| split]].
  - intros evs t0. apply run_length. cbn. lia.
  - intros ds w Hactive Hempty.
    rewrite deliveries_slice by (rewrite ?Hempty; cbn; auto; lia).
    rewrite Hempty. split; [apply slice_last_length | reflexivity].
  - intros env d w oldest rest Hactive Hbuffer Hfull.
    rewrite (proj2 (deliver_active w (env, d) Hactive)), Hbuffer.
    unfold record. cbn [fst snd].
    replace (Nat.ltb 300 (List.length (JS.push (oldest :: rest) (sample env d))))
      with true.
    + apply shift_push.
    + symmetry. apply Nat.ltb_lt. unfold JS.push. rewrite length_app, Hfull.
      cbn. lia.
  - intros env d w Hactive Hroom.
    rewrite (proj2 (deliver_active w (env, d) Hactive)).
    unfold record. cbn [fst snd].
    replace (Nat.ltb 300 (List.length (JS.push (motionBuffer (this w)) (sample env d))))
      with false; [reflexivity |].
    symmetry. apply Nat.ltb_ge. unfold JS.push. rewrite length_app. cbn. lia.
Qed.

Lemma motion_buffer_fifo_witness :
  (_isServiceActive (this evening) = true /\
   motionBuffer (this evening) = [] /\
   (List.length (motionBuffer (this (fold_left deliver (reports 301) evening)))
      <= 300)%nat /\
   motionBuffer (this (fold_left deliver (reports 301) evening))
     = JS.slice_last 300 (map (fun d => sample (fst d) (snd d)) (reports 301)))
  /\
  (exists oldest rest,
     _isServiceActive (this evening_full) = true /\
     motionBuffer (this evening_full) = oldest :: rest /\
     List.length (oldest :: rest) = 300%nat /\
     motionBuffer (this (deliver evening_full (surroundings (clock 22 5 1), moved)))
       = rest ++ [sample (surroundings (clock 22 5 1)) moved])
  /\
  (_isServiceActive (this evening) = true /\
   (List.length (motionBuffer (this evening)) < 300)%nat /\
   motionBuffer (this (deliver evening (surroundings (clock 22 0 1), moved)))
     = motionBuffer (this evening) ++ [sample (surroundings (clock 22 0 1)) moved]).
Proof.
  destruct motion_buffer_fifo as (_ & last300 & evict & append).
  split; [| split].
  - split; [reflexivity |]. split; [reflexivity |].
    apply last300; reflexivity.
  - eexists. eexists.
    split; [vm_compute; reflexivity |].
    split; [vm_compute; reflexivity |].
    split; [vm_compute; reflexivity |].
    eapply evict; vm_compute; reflexivity.
  - split; [reflexivity |]. split; [cbn; lia |].
    apply append; [reflexivity | cbn; lia].
Defined.

(** C7. After [stopTracking] the detection state reports that tracking is off
    and shows the session that was open before, field for field; nothing is
    finalized, stored or reported as ended. *)
Theorem stop_keeps_session (env env' : Env) (w : World) :
  let w' := snd (stopTracking env w) in
  DetectionState.isTracking (getDetectionState env' (this w')) = false /\
  DetectionState.currentSession (getDetectionState env' (this w'))
    = currentSession (this w) /\
  getCurrentSession (this w') = getCurrentSession (this w) /\
  sleep_sessions (disk w') = sleep_sessions (disk w) /\
  transitions (console w') = transitions (console w).
Proof.
  destruct (stopTracking_frame env w) as (Hoff & _ & Hcur & Hdisk & Hlog).
  cbn [getDetectionState DetectionState.isTracking DetectionState.currentSession
       getCurrentSession].
  auto.
Qed.

(** C8 (as amended). When tracking is off and the permission request on a
    native platform is not granted, [startTracking] changes nothing but the
    console: tracking stays off, no listener and no timer is registered,
    nothing is stored, the error is logged, and the call completes normally,
    so the caller is told nothing. *)
Theorem denied_permission_is_logged (env : Env) (w : World) :
  _isServiceActive (this w) = false ->
  Platform_OS env <> web ->
  requestPermissionsAsync env <> granted ->
  fst (startTracking env w) = Normal tt /\
  this (snd (startTracking env w)) = this w /\
  host (snd (startTracking env w)) = host w /\
  disk (snd (startTracking env w)) = disk w /\
  console (snd (startTracking env w))
    = console w ++ [console_error "Failed to start sleep tracking:"
                      (mkError "Motion permissions not granted")] /\
  DetectionState.isTracking
    (getDetectionState env (this (snd (startTracking env w)))) = false.
Proof.
  intros Hidle Hnative Hdenied.
  rewrite startTracking_denied.
  - cbn [fst snd this host disk console set_console getDetectionState
         DetectionState.isTracking].
    auto 10.
  - exact Hidle.
  - destruct (Platform_OS env); [contradiction | reflexivity | reflexivity].
  - destruct (requestPermissionsAsync env);
      [contradiction | reflexivity | reflexivity].
Qed.

Lemma denied_permission_is_logged_witness :
  _isServiceActive (this (initial (clock 21 59 0))) = false /\
  Platform_OS (surroundings_denied (clock 22 0 0)) <> web /\
  requestPermissionsAsync (surroundings_denied (clock 22 0 0)) <> granted /\
  fst (startTracking (surroundings_denied (clock 22 0 0)) (initial (clock 21 59 0)))
    = Normal tt /\
  host (snd (startTracking (surroundings_denied (clock 22 0 0))
                           (initial (clock 21 59 0))))
    = host (initial (clock 21 59 0)).
Proof.
  split; [reflexivity |]. split; [discriminate |]. split; [discriminate |].
  destruct (denied_permission_is_logged (surroundings_denied (clock 22 0 0))
              (initial (clock 21 59 0)))
    as (Hdone & _ & Hhost & _); [reflexivity | discriminate | discriminate |].
  split; [exact Hdone | exact Hhost].
Defined.

(** C8 (as stated) fails: with the permission denied the call completes
    normally, exactly as a call that starts tracking does; no error reaches
    the caller. *)
Lemma denied_permission_not_surfaced :
  let denied := startTracking (surroundings_denied (clock 22 0 0))
                              (initial (clock 21 59 0)) in
  let allowed := startTracking (surroundings (clock 22 0 0))
                               (initial (clock 21 59 0)) in
  fst denied = Normal tt /\
  (forall e, fst denied <> Throw e) /\
  fst denied = fst allowed /\
  _isServiceActive (this (snd denied)) = false /\
  _isServiceActive (this (snd allowed)) = true.
Proof. vm_compute. repeat split. discriminate. Qed.

(** C9. When tracking is already on, [startTracking] completes at once and
    leaves the whole world as it was: the flag, the subscription, the timer,
    the buffer, the last activity and the current session, and on the host
    the registered listeners and timers. *)
Theorem startTracking_idempotent (env : Env) (w : World) :
  _isServiceActive (this w) = true ->
  startTracking env w = (Normal tt, w) /\
  listeners (host (snd (startTracking env w))) = listeners (host w) /\
  intervals (host (snd (startTracking env w))) = intervals (host w).
Proof.
  intro Hactive. rewrite (startTracking_active env w Hactive). auto.
Qed.

Lemma startTracking_idempotent_witness :
  _isServiceActive (this evening) = true /\
  startTracking (surroundings (clock 22 5 0)) evening = (Normal tt, evening) /\
  startTracking (surroundings (clock 22 5 0))
    (snd (startTracking (surroundings (clock 22 0 0)) (initial (clock 21 59 0))))
  = (Normal tt,
     snd (startTracking (surroundings (clock 22 0 0)) (initial (clock 21 59 0)))).
Proof.
  split; [reflexivity |].
  split; apply (startTracking_idempotent (surroundings (clock 22 5 0)));
    reflexivity.
Defined.

(** * Further properties of the code *)

(** ** The stored sessions *)

Ltac run_storage :=
  unfold deleteSleepSession, getAllSleepSessions,
    StorageService.saveSleepSession, StorageService.getSleepSessions,
    AsyncStorage_getItem, AsyncStorage_setItem, try_catch, bind, log, ret, throw;
  cbn [this host disk console set_this set_console set_disk fst snd].

Lemma getSleepSessions_result (env : Env) (w : World) :
  StorageService.getSleepSessions env w
    = (Normal (stored env (disk w)), set_console (console w ++ readLog env) w).
Proof.
  run_storage. unfold stored, readLog.
  destruct (getItem_rejects env); [reflexivity |].
  destruct (sleep_sessions (disk w)); rewrite app_nil_r; destruct w; reflexivity.
Qed.

Lemma saveSleepSession_written (c : SleepSession) (env : Env) (w : World) :
  setItem_rejects env = false ->
  StorageService.saveSleepSession c env w
    = (Normal tt,
       {| this := this w;
          host := host w;
          disk := write_sleep_sessions (upsert c (stored env (disk w))) (disk w);
          console := console w ++ readLog env |}).
Proof.
  intro Hset. pose proof (getSleepSessions_result env w) as Hread.
  unfold StorageService.saveSleepSession, try_catch, bind.
  rewrite Hread. unfold AsyncStorage_setItem. rewrite Hset. reflexivity.
Qed.

Lemma saveSleepSession_rejected (c : SleepSession) (env : Env) (w : World) :
  setItem_rejects env = true ->
  StorageService.saveSleepSession c env w
    = (Throw (mkError "AsyncStorage.setItem"),
       set_console
         ((console w ++ readLog env)
            ++ [console_error "Failed to save sleep session:"
                  (mkError "AsyncStorage.setItem")]) w).
Proof.
  intro Hset. pose proof (getSleepSessions_result env w) as Hread.
  unfold StorageService.saveSleepSession, try_catch, bind.
  rewrite Hread. unfold AsyncStorage_setItem. rewrite Hset.
  unfold log, throw. reflexivity.
Qed.

Lemma deleteSleepSession_written (sessionId : string) (env : Env) (w : World) :
  setItem_rejects env = false ->
  deleteSleepSession sessionId env w
    = (Normal tt,
       {| this := this w;
          host := host w;
          disk := write_sleep_sessions
                    (filter (fun s => negb (String.eqb (id s) sessionId))
                            (stored env (disk w))) (disk w);
          console := console w ++ readLog env |}).
Proof.
  intro Hset. pose proof (getSleepSessions_result env w) as Hread.
  unfold deleteSleepSession, try_catch, bind.
  rewrite Hread. unfold AsyncStorage_setItem. rewrite Hset. reflexivity.
Qed.

Lemma deleteSleepSession_rejected (sessionId : string) (env : Env) (w : World) :
  setItem_rejects env = true ->
  deleteSleepSession sessionId env w
    = (Throw (mkError "AsyncStorage.setItem"),
       set_console
         ((console w ++ readLog env)
            ++ [console_error "Failed to delete sleep session:"
                  (mkError "AsyncStorage.setItem")]) w).
Proof.
  intro Hset. pose proof (getSleepSessions_result env w) as Hread.
  unfold deleteSleepSession, try_catch, bind.
  rewrite Hread. unfold AsyncStorage_setItem. rewrite Hset.
  unfold log, throw. reflexivity.
Qed.

(** *** Insert-or-replace on a list *)

Lemma upsert_cons (c a : SleepSession) (l : list SleepSession) :
  upsert c (a :: l) = if same_id c a then c :: l else a :: upsert c l.
Proof.
  unfold upsert, same_id, JS.push. cbn [JS.findIndex].
  destruct (String.eqb (id a) (id c)); [reflexivity |].
  destruct (JS.findIndex (fun s => String.eqb (id s) (id c)) l); reflexivity.
Qed.

Lemma upsert_nil (c : SleepSession) : upsert c [] = [c].
Proof. reflexivity. Qed.

Lemma upsert_find (c : SleepSession) (l : list SleepSession) :
  find (same_id c) (upsert c l) = Some c.
Proof.
  induction l as [| a l IH].
  - rewrite upsert_nil. cbn [find]. unfold same_id. rewrite String.eqb_refl.
    reflexivity.
  - rewrite upsert_cons. destruct (same_id c a) eqn:Ha; cbn [find].
    + unfold same_id at 1. rewrite String.eqb_refl. reflexivity.
    + rewrite Ha. exact IH.
Qed.


Lemma upsert_others (c : SleepSession) (l : list SleepSession) :
  filter (fun s => negb (same_id c s)) (upsert c l)
    = filter (fun s => negb (same_id c s)) l.
Proof.
  induction l as [| a l IH].
  - rewrite upsert_nil. cbn [filter]. unfold same_id. rewrite String.eqb_refl.
    reflexivity.
  - rewrite upsert_cons. destruct (same_id c a) eqn:Ha; cbn [filter].
    + unfold same_id at 1. rewrite String.eqb_refl, Ha. reflexivity.
    + rewrite Ha, IH. reflexivity.
Qed.

Lemma upsert_length (c : SleepSession) (l : list SleepSession) :
  List.length (upsert c l)
    = if existsb (same_id c) l then List.length l else S (List.length l).
Proof.
  induction l as [| a l IH]; [reflexivity |].
  rewrite upsert_cons. cbn [existsb]. destruct (same_id c a); cbn [orb List.length].
  - reflexivity.
  - rewrite IH. destruct (existsb (same_id c) l); reflexivity.
Qed.

Lemma upsert_ids (c : SleepSession) (l : list SleepSession) (i : string) :
  In i (map id (upsert c l)) -> i = id c \/ In i (map id l).
Proof.
  induction l as [| a l IH].
  - rewrite upsert_nil. cbn. intros [H | []]. left. symmetry. exact H.
  - rewrite upsert_cons. destruct (same_id c a); cbn [map In].
    + intros [H | H]; [left; symmetry; exact H | right; right; exact H].
    + intros [H | H]; [right; left; exact H |].
      destruct (IH H) as [H' | H']; [left; exact H' | right; right; exact H'].
Qed.

Lemma upsert_NoDup (c : SleepSession) (l : list SleepSession) :
  NoDup (map id l) -> NoDup (map id (upsert c l)).
Proof.
  induction l as [| a l IH]; intro Hnodup.
  - rewrite upsert_nil. cbn. constructor; [intros [] | constructor].
  - rewrite upsert_cons. cbn [map] in Hnodup. inversion Hnodup as [| i r Hnotin Hrest];
      subst.
    destruct (same_id c a) eqn:Ha; cbn [map].
    + unfold same_id in Ha. apply String.eqb_eq in Ha. rewrite <- Ha.
      constructor; assumption.
    + constructor; [| apply IH; exact Hrest].
      intro Hin. destruct (upsert_ids c l (id a) Hin) as [Heq | Hin'].
      * unfold same_id in Ha. rewrite Heq, String.eqb_refl in Ha. discriminate.
      * exact (Hnotin Hin').
Qed.

Lemma upsert_idempotent (c : SleepSession) (l : list SleepSession) :
  upsert c (upsert c l) = upsert c l.
Proof.
  induction l as [| a l IH].
  - rewrite upsert_nil, upsert_cons. unfold same_id. rewrite String.eqb_refl.
    reflexivity.
  - rewrite upsert_cons. destruct (same_id c a) eqn:Ha; rewrite upsert_cons.
    + unfold same_id. rewrite String.eqb_refl. reflexivity.
    + rewrite Ha, IH. reflexivity.
Qed.

Lemma filter_absent (c : SleepSession) (l : list SleepSession) :
  ~ In (id c) (map id l) ->
  filter (fun s => negb (same_id c s)) l = l.
Proof.
  induction l as [| a l IH]; intro Hnotin; [reflexivity |].
  cbn [filter]. cbn [map In] in Hnotin.
  destruct (same_id c a) eqn:Ha.
  - unfold same_id in Ha. apply String.eqb_eq in Ha. tauto.
  - cbn [negb]. rewrite IH by tauto. reflexivity.
Qed.

Lemma stored_written (env : Env) (l : list SleepSession) (d : AsyncStorage) :
  getItem_rejects env = false ->
  stored env (write_sleep_sessions l d) = l.
Proof. intro H. unfold stored. rewrite H. reflexivity. Qed.



(** X2. A successful [saveSleepSession] replaces or appends one session and
    leaves the rest alone: the stored sessions with another id are the same,
    in the same order; the list grows by one exactly when the id was not
    stored; and stored ids that were pairwise different stay so. *)
Theorem save_keeps_the_other_sessions
    (c : SleepSession) (env : Env) (w : World) :
  getItem_rejects env = false ->
  setItem_rejects env = false ->
  let before := stored env (disk w) in
  let after := stored env (disk (snd (StorageService.saveSleepSession c env w))) in
  filter (fun s => negb (same_id c s)) after
    = filter (fun s => negb (same_id c s)) before /\
  List.length after
    = (if existsb (same_id c) before then List.length before
       else S (List.length before)) /\
  (NoDup (map id before) -> NoDup (map id after)).
Proof.
  intros Hget Hset before after. subst after.
  rewrite (saveSleepSession_written c env w Hset). cbn [snd disk].
  rewrite stored_written by exact Hget. fold before.
  split; [apply upsert_others |].
  split; [apply upsert_length | apply upsert_NoDup].
Qed.

Lemma save_keeps_the_other_sessions_witness :
  let env := surroundings (clock 13 31 0) in
  let before := stored env (disk morning) in
  let after := stored env (disk (snd (StorageService.saveSleepSession nap env morning))) in
  getItem_rejects env = false /\
  setItem_rejects env = false /\
  filter (fun s => negb (same_id nap s)) after
    = filter (fun s => negb (same_id nap s)) before /\
  List.length after = 2%nat.
Proof.
  split; [reflexivity |]. split; [reflexivity |].
  destruct (save_keeps_the_other_sessions nap (surroundings (clock 13 31 0)) morning)
    as (Hothers & Hlength & _); [reflexivity | reflexivity |].
  split; [exact Hothers |]. rewrite Hlength. vm_compute. reflexivity.
Defined.

(** X3. When the read of the stored sessions is rejected and the write is
    not, [saveSleepSession] completes normally and the store holds the saved
    session alone: whatever was stored before is overwritten. *)
Theorem save_after_rejected_read_overwrites
    (c : SleepSession) (env : Env) (w : World) :
  getItem_rejects env = true ->
  setItem_rejects env = false ->
  fst (StorageService.saveSleepSession c env w) = Normal tt /\
  sleep_sessions (disk (snd (StorageService.saveSleepSession c env w))) = Some [c].
Proof.
  intros Hget Hset. rewrite (saveSleepSession_written c env w Hset).
  split; [reflexivity |]. cbn [snd disk sleep_sessions write_sleep_sessions].
  unfold stored. rewrite Hget. reflexivity.
Qed.

Lemma save_after_rejected_read_overwrites_witness :
  List.length (stored (surroundings 0) (disk morning)) = 1%nat /\
  ~ In nap (stored (surroundings 0) (disk morning)) /\
  sleep_sessions
    (disk (snd (StorageService.saveSleepSession nap
                  (surroundings_unreadable (clock 13 31 0)) morning)))
    = Some [nap].
Proof.
  split; [vm_compute; reflexivity |].
  split; [vm_compute; intros [H | []]; discriminate H |].
  apply (save_after_rejected_read_overwrites nap
           (surroundings_unreadable (clock 13 31 0)) morning); reflexivity.
Defined.

(** X4. When the write is rejected, [saveSleepSession] throws the error of the
    write and leaves the store, the service and the host as they were. *)
Theorem save_with_rejected_write_throws
    (c : SleepSession) (env : Env) (w : World) :
  setItem_rejects env = true ->
  fst (StorageService.saveSleepSession c env w)
    = Throw (mkError "AsyncStorage.setItem") /\
  disk (snd (StorageService.saveSleepSession c env w)) = disk w /\
  this (snd (StorageService.saveSleepSession c env w)) = this w /\
  host (snd (StorageService.saveSleepSession c env w)) = host w.
Proof.
  intro Hset. rewrite (saveSleepSession_rejected c env w Hset).
  repeat split.
Qed.

Lemma save_with_rejected_write_throws_witness :
  setItem_rejects (surroundings_full_disk (clock 13 31 0)) = true /\
  fst (StorageService.saveSleepSession nap
         (surroundings_full_disk (clock 13 31 0)) morning)
    = Throw (mkError "AsyncStorage.setItem") /\
  disk (snd (StorageService.saveSleepSession nap
               (surroundings_full_disk (clock 13 31 0)) morning))
    = disk morning.
Proof.
  split; [reflexivity |].
  destruct (save_with_rejected_write_throws nap
              (surroundings_full_disk (clock 13 31 0)) morning)
    as (Hthrow & Hdisk & _); [reflexivity |].
  split; [exact Hthrow | exact Hdisk].
Defined.

(** X5. After a successful [deleteSleepSession] no session with the deleted id
    is read back, and the sessions with another id are all still there, in
    their order. *)
Theorem deleted_session_is_gone
    (sessionId : string) (env env' : Env) (w : World) :
  getItem_rejects env = false ->
  setItem_rejects env = false ->
  getItem_rejects env' = false ->
  fst (deleteSleepSession sessionId env w) = Normal tt /\
  exists l,
    fst (StorageService.getSleepSessions env'
           (snd (deleteSleepSession sessionId env w))) = Normal l /\
    ~ In sessionId (map id l) /\
    l = filter (fun s => negb (String.eqb (id s) sessionId)) (stored env (disk w)).
Proof.
  intros Hget Hset Hget'. rewrite (deleteSleepSession_written sessionId env w Hset).
  split; [reflexivity |].
  rewrite getSleepSessions_result. cbn [fst snd disk].
  eexists. split; [reflexivity |].
  rewrite stored_written by exact Hget'. split; [| reflexivity].
  intro Hin. apply in_map_iff in Hin. destruct Hin as (s & Hid & Hs).
  apply filter_In in Hs. destruct Hs as [_ Hs].
  rewrite Hid, String.eqb_refl in Hs. discriminate.
Qed.

Lemma deleted_session_is_gone_witness :
  let env := surroundings (clock 13 31 0) in
  getItem_rejects env = false /\
  setItem_rejects env = false /\
  List.length (stored env (disk morning)) = 1%nat /\
  exists l,
    fst (StorageService.getSleepSessions env
           (snd (deleteSleepSession "1700031590000" env morning))) = Normal l /\
    ~ In "1700031590000"%string (map id l).
Proof.
  split; [reflexivity |]. split; [reflexivity |].
  split; [vm_compute; reflexivity |].
  destruct (deleted_session_is_gone "1700031590000"
              (surroundings (clock 13 31 0)) (surroundings (clock 13 31 0)) morning)
    as (_ & l & Hread & Hgone & _); try reflexivity.
  exists l. split; [exact Hread | exact Hgone].
Defined.

(** X6. Deleting a session right after saving it under an id that was not
    stored gives back the stored list as it was. *)
Theorem delete_undoes_save
    (c : SleepSession) (env1 env2 : Env) (w : World) :
  getItem_rejects env1 = false ->
  setItem_rejects env1 = false ->
  getItem_rejects env2 = false ->
  setItem_rejects env2 = false ->
  ~ In (id c) (map id (stored env1 (disk w))) ->
  sleep_sessions
    (disk (snd (deleteSleepSession (id c) env2
                  (snd (StorageService.saveSleepSession c env1 w)))))
    = Some (stored env1 (disk w)).
Proof.
  intros Hget1 Hset1 Hget2 Hset2 Hfresh.
  rewrite (saveSleepSession_written c env1 w Hset1). cbn [snd].
  rewrite deleteSleepSession_written by exact Hset2.
  cbn [snd disk sleep_sessions write_sleep_sessions].
  rewrite stored_written by exact Hget2.
  change (fun s => negb (String.eqb (id s) (id c)))
    with (fun s => negb (same_id c s)).
  rewrite upsert_others, filter_absent by exact Hfresh. reflexivity.
Qed.

Lemma delete_undoes_save_witness :
  let env := surroundings (clock 13 31 0) in
  ~ In (id nap) (map id (stored env (disk morning))) /\
  sleep_sessions
    (disk (snd (deleteSleepSession (id nap) env
                  (snd (StorageService.saveSleepSession nap env morning)))))
    = Some (stored env (disk morning)).
Proof.
  assert (Hfresh : ~ In (id nap)
                     (map id (stored (surroundings (clock 13 31 0)) (disk morning)))).
  { vm_compute. intros [H | []]. discriminate H. }
  split; [exact Hfresh |].
  apply delete_undoes_save; try reflexivity. exact Hfresh.
Defined.

(** X7. [getSleepSessions] never throws and never writes: it returns the
    stored list, or the empty list when the read is rejected or the item is
    missing, and the store, the service and the host are as before. *)
Theorem getSleepSessions_never_throws (env : Env) (w : World) :
  (exists l,
     fst (StorageService.getSleepSessions env w) = Normal l /\
     (getItem_rejects env = true -> l = []) /\
     (sleep_sessions (disk w) = None -> l = []) /\
     (forall ss, getItem_rejects env = false ->
                 sleep_sessions (disk w) = Some ss -> l = ss))
  /\ disk (snd (StorageService.getSleepSessions env w)) = disk w
  /\ this (snd (StorageService.getSleepSessions env w)) = this w
  /\ host (snd (StorageService.getSleepSessions env w)) = host w.
Proof.
  rewrite getSleepSessions_result. cbn [fst snd].
  split; [| repeat split].
  eexists. split; [reflexivity |]. unfold stored.
  destruct (getItem_rejects env).
  - repeat split; try reflexivity. intros ss H. discriminate H.
  - destruct (sleep_sessions (disk w)) as [ss' |].
    + split; [intro H; discriminate H |].
      split; [intro H; discriminate H |].
      intros ss _ H. inversion H. reflexivity.
    + split; [intro H; discriminate H |].
      split; [reflexivity |]. intros ss _ H. discriminate H.
Qed.

Lemma getSleepSessions_never_throws_witness :
  getItem_rejects (surroundings_unreadable (clock 13 31 0)) = true /\
  sleep_sessions (disk morning) <> None /\
  fst (StorageService.getSleepSessions (surroundings_unreadable (clock 13 31 0))
         morning) = Normal [] /\
  sleep_sessions (disk evening) = None /\
  fst (StorageService.getSleepSessions (surroundings (clock 22 1 0)) evening)
    = Normal [].
Proof.
  split; [reflexivity |]. split; [vm_compute; discriminate |].
  destruct (getSleepSessions_never_throws
              (surroundings_unreadable (clock 13 31 0)) morning)
    as [(l & Hl & Hrejected & _) _].
  destruct (getSleepSessions_never_throws (surroundings (clock 22 1 0)) evening)
    as [(l' & Hl' & _ & Hmissing & _) _].
  split; [rewrite Hl, (Hrejected eq_refl); reflexivity |].
  split; [reflexivity |].
  rewrite Hl', (Hmissing eq_refl). reflexivity.
Defined.

(** ** Starting and stopping *)

Lemma startTracking_native (env : Env) (w : World) :
  _isServiceActive (this w) = false ->
  is_web (Platform_OS env) = false ->
  is_granted (requestPermissionsAsync env) = true ->
  startTracking env w =
    let h := nextHandle (host w) in
    let started :=
      {| this := {| _isServiceActive := true;
                    motionSubscription := Some h;
                    detectionInterval := Some (S h);
                    lastActivity := now env;
                    motionBuffer := motionBuffer (this w);
                    currentSession := currentSession (this w) |};
         host := {| nextHandle := S (S h);
                    listeners := h :: listeners (host w);
                    intervals := (S h, DETECTION_INTERVAL) :: intervals (host w);
                    updateInterval := Some 1000 |};
         disk := disk w;
         console := console w |} in
    if setItem_rejects env then
      (Normal tt,
       set_this (set_isServiceActive false (this started))
         (set_console
            (console w ++ [console_error "Failed to start sleep tracking:"
                             (mkError "AsyncStorage.setItem")]) started))
    else
      (Normal tt,
       set_console (console w ++ [console_log "Sleep tracking started" None])
         (set_disk (write_sleepTracking "true" (disk w)) started)).
Proof.
  intros Hidle Hnative Hgranted. run_lifecycle.
  rewrite Hidle, Hnative, Hgranted. cbn [negb]. rewrite Hnative.
  cbn [this host disk console set_this set_console set_disk set_host
       _isServiceActive motionSubscription detectionInterval lastActivity
       motionBuffer currentSession set_isServiceActive set_motionSubscription
       set_detectionInterval set_lastActivity nextHandle listeners intervals
       updateInterval].
  destruct (setItem_rejects env); reflexivity.
Qed.

Lemma startTracking_web (env : Env) (w : World) :
  _isServiceActive (this w) = false ->
  is_web (Platform_OS env) = true ->
  startTracking env w =
    let h := nextHandle (host w) in
    let started :=
      {| this := {| _isServiceActive := true;
                    motionSubscription := motionSubscription (this w);
                    detectionInterval := Some h;
                    lastActivity := now env;
                    motionBuffer := motionBuffer (this w);
                    currentSession := currentSession (this w) |};
         host := {| nextHandle := S h;
                    listeners := listeners (host w);
                    intervals := (h, DETECTION_INTERVAL) :: intervals (host w);
                    updateInterval := updateInterval (host w) |};
         disk := disk w;
         console := console w |} in
    if setItem_rejects env then
      (Normal tt,
       set_this (set_isServiceActive false (this started))
         (set_console
            (console w ++ [console_error "Failed to start sleep tracking:"
                             (mkError "AsyncStorage.setItem")]) started))
    else
      (Normal tt,
       set_console (console w ++ [console_log "Sleep tracking started" None])
         (set_disk (write_sleepTracking "true" (disk w)) started)).
Proof.
  intros Hidle Hweb. run_lifecycle.
  rewrite Hidle, Hweb. cbn [negb].
  cbn [this host disk console set_this set_console set_disk set_host
       _isServiceActive motionSubscription detectionInterval lastActivity
       motionBuffer currentSession set_isServiceActive set_motionSubscription
       set_detectionInterval set_lastActivity nextHandle listeners intervals
       updateInterval].
  destruct (setItem_rejects env); reflexivity.
Qed.

Lemma stopTracking_result (env : Env) (w : World) :
  stopTracking env w =
    let stopped :=
      {| this := {| _isServiceActive := false;
                    motionSubscription := None;
                    detectionInterval := None;
                    lastActivity := lastActivity (this w);
                    motionBuffer := motionBuffer (this w);
                    currentSession := currentSession (this w) |};
         host := {| nextHandle := nextHandle (host w);
                    listeners :=
                      match motionSubscription (this w) with
                      | Some h => filter (fun k => negb (Nat.eqb k h)) (listeners (host w))
                      | None => listeners (host w)
                      end;
                    intervals :=
                      match detectionInterval (this w) with
                      | Some h =>
                          filter (fun t => negb (Nat.eqb (fst t) h)) (intervals (host w))
                      | None => intervals (host w)
                      end;
                    updateInterval := updateInterval (host w) |};
         disk := disk w;
         console := console w |} in
    if setItem_rejects env then (Throw (mkError "AsyncStorage.setItem"), stopped)
    else
      (Normal tt,
       set_console (console w ++ [console_log "Sleep tracking stopped" None])
         (set_disk (write_sleepTracking "false" (disk w)) stopped)).
Proof.
  run_lifecycle.
  destruct w as [[a [ms |] [di |] la mb cs] [n ls ivs ui] dk c]; cbn;
    destruct (setItem_rejects env); reflexivity.
Qed.

Lemma isTracking_result (env : Env) (w : World) :
  getItem_rejects env = false ->
  isTracking env w
    = (Normal match sleepTracking (disk w) with
              | Some v => String.eqb v "true"
              | None => false
              end, w).
Proof.
  intro Hget. unfold isTracking, bind, AsyncStorage_getItem, ret.
  rewrite Hget. reflexivity.
Qed.

(** X8. On a phone, with the permission granted and a store that accepts the
    write, [startTracking] from the idle state turns tracking on: the last
    activity is the time of the call, exactly one listener and one 30-second
    timer are added to the host and remembered by the service, the stored
    flag says true, and the buffer, the current session and the stored
    sessions are untouched. *)
Theorem startTracking_registers_once (env : Env) (w : World) :
  _isServiceActive (this w) = false ->
  Platform_OS env <> web ->
  requestPermissionsAsync env = granted ->
  setItem_rejects env = false ->
  let w' := snd (startTracking env w) in
  let h := nextHandle (host w) in
  fst (startTracking env w) = Normal tt /\
  _isServiceActive (this w') = true /\
  lastActivity (this w') = now env /\
  motionSubscription (this w') = Some h /\
  detectionInterval (this w') = Some (S h) /\
  listeners (host w') = h :: listeners (host w) /\
  intervals (host w') = (S h, 30000) :: intervals (host w) /\
  sleepTracking (disk w') = Some "true"%string /\
  sleep_sessions (disk w') = sleep_sessions (disk w) /\
  motionBuffer (this w') = motionBuffer (this w) /\
  currentSession (this w') = currentSession (this w).
Proof.
  intros Hidle Hnative Hgranted Hset.
  rewrite startTracking_native, Hset.
  - cbn. repeat split.
  - exact Hidle.
  - destruct (Platform_OS env); [contradiction | reflexivity | reflexivity].
  - rewrite Hgranted. reflexivity.
Qed.

Lemma startTracking_registers_once_witness :
  let env := surroundings (clock 22 0 0) in
  let w := initial (clock 21 59 0) in
  _isServiceActive (this w) = false /\
  Platform_OS env <> web /\
  requestPermissionsAsync env = granted /\
  setItem_rejects env = false /\
  listeners (host (snd (startTracking env w))) = [O] /\
  intervals (host (snd (startTracking env w))) = [(1%nat, 30000)].
Proof.
  split; [reflexivity |]. split; [discriminate |].
  split; [reflexivity |]. split; [reflexivity |].
  destruct (startTracking_registers_once (surroundings (clock 22 0 0))
              (initial (clock 21 59 0)))
    as (_ & _ & _ & _ & _ & Hlisteners & Hintervals & _);
    try reflexivity; [discriminate |].
  split; [exact Hlisteners | exact Hintervals].
Defined.

Lemma tick_keeps_the_rest (env : Env) (w : World) :
  let w' := snd (performSleepDetection env w) in
  _isServiceActive (this w') = _isServiceActive (this w) /\
  motionSubscription (this w') = motionSubscription (this w) /\
  detectionInterval (this w') = detectionInterval (this w) /\
  lastActivity (this w') = lastActivity (this w) /\
  motionBuffer (this w') = motionBuffer (this w) /\
  host w' = host w /\
  sleepTracking (disk w') = sleepTracking (disk w).
Proof.
  destruct (currentSession (this w)) as [s |] eqn:Hcur.
  - destruct (JS.lt (tickProbability env w) 0.3) eqn:Hlt.
    + destruct (setItem_rejects env) eqn:Hset.
      * rewrite (tick_wake_fails env w s Hcur Hlt Hset). repeat split.
      * rewrite (tick_wake env w s Hcur Hlt Hset). repeat split.
    + rewrite (tick_asleep env w s Hcur Hlt). repeat split.
  - destruct (JS.gt (tickProbability env w) SLEEP_CONFIDENCE_THRESHOLD) eqn:Hgt.
    + rewrite (tick_start env w Hcur Hgt). repeat split.
    + rewrite (tick_idle env w Hcur Hgt). repeat split.
Qed.

Lemma step_in_a_browser (w : World) (ee : Env * Event) :
  Platform_OS (fst ee) = web ->
  listeners (host w) = [] ->
  motionBuffer (this w) = [] ->
  listeners (host (step w ee)) = [] /\ motionBuffer (this (step w ee)) = [].
Proof.
  destruct ee as [env ev]. cbn [fst]. intros Hweb Hnone Hempty.
  destruct ev as [| | h d | h]; cbn [step].
  - destruct (_isServiceActive (this w)) eqn:Hactive.
    + rewrite (startTracking_active env w Hactive). auto.
    + rewrite (startTracking_web env w Hactive) by (rewrite Hweb; reflexivity).
      destruct (setItem_rejects env); cbn; auto.
  - rewrite stopTracking_result.
    destruct (setItem_rejects env); cbn; rewrite Hnone;
      destruct (motionSubscription (this w)); auto.
  - rewrite Hnone. cbn [existsb]. auto.
  - destruct (existsb (fun t => Nat.eqb h (fst t)) (intervals (host w))); [| auto].
    destruct (tick_keeps_the_rest env w) as (_ & _ & _ & _ & Hbuffer & Hhost & _).
    rewrite Hhost, Hbuffer. auto.
Qed.

(** X9. In a browser no motion is ever recorded: whatever is called and
    whatever fires, starting from the constructed service, no listener is
    registered, the buffer stays empty and the recent motion level is 0. *)
Theorem a_browser_records_no_motion (evs : list (Env * Event)) (t0 : Date) :
  Forall (fun ee => Platform_OS (fst ee) = web) evs ->
  listeners (host (run evs (initial t0))) = [] /\
  motionBuffer (this (run evs (initial t0))) = [] /\
  getRecentMotionLevel (this (run evs (initial t0))) = 0%float.
Proof.
  intro Hweb.
  assert (Hinv : forall w, listeners (host w) = [] -> motionBuffer (this w) = [] ->
                           listeners (host (run evs w)) = [] /\
                           motionBuffer (this (run evs w)) = []).
  { induction Hweb as [| ee evs Hee _ IH]; intros w Hnone Hempty; [auto |].
    change (run (ee :: evs) w) with (run evs (step w ee)).
    destruct (step_in_a_browser w ee Hee Hnone Hempty) as [Hnone' Hempty'].
    apply IH; assumption. }
  destruct (Hinv (initial t0) eq_refl eq_refl) as [Hnone Hempty].
  split; [exact Hnone |]. split; [exact Hempty |].
  unfold getRecentMotionLevel. rewrite Hempty. reflexivity.
Qed.

Lemma a_browser_records_no_motion_witness :
  let evs := [(surroundings_web (clock 22 0 0), call_startTracking);
              (surroundings_web (clock 22 0 1), motion_update 0 moved);
              (surroundings_web (clock 22 0 30), interval_fired 0)] in
  Forall (fun ee => Platform_OS (fst ee) = web) evs /\
  _isServiceActive (this (run evs (initial (clock 21 59 0)))) = true /\
  motionBuffer (this (run evs (initial (clock 21 59 0)))) = [].
Proof.
  assert (H : Forall (fun ee => Platform_OS (fst ee) = web)
                [(surroundings_web (clock 22 0 0), call_startTracking);
                 (surroundings_web (clock 22 0 1), motion_update 0 moved);
                 (surroundings_web (clock 22 0 30), interval_fired 0)]).
  { repeat constructor. }
  split; [exact H |]. split; [reflexivity |].
  exact (proj1 (proj2 (a_browser_records_no_motion _ (clock 21 59 0) H))).
Defined.

(** X10. When the store rejects the write of the flag, [startTracking] still
    completes normally and reports tracking as off, but the listener and the
    timer it has just registered stay live: the timer goes on driving ticks,
    and neither a later successful [startTracking] nor the [stopTracking]
    after it cancels them. *)
Theorem failed_start_leaves_its_timer (env1 env2 env3 : Env) (w : World) :
  _isServiceActive (this w) = false ->
  Platform_OS env1 <> web -> requestPermissionsAsync env1 = granted ->
  setItem_rejects env1 = true ->
  Platform_OS env2 <> web -> requestPermissionsAsync env2 = granted ->
  let h := nextHandle (host w) in
  let w1 := snd (startTracking env1 w) in
  let w3 := snd (stopTracking env3 (snd (startTracking env2 w1))) in
  fst (startTracking env1 w) = Normal tt /\
  _isServiceActive (this w1) = false /\
  In h (listeners (host w1)) /\
  In (S h, 30000) (intervals (host w1)) /\
  (forall env, step w1 (env, interval_fired (S h))
                 = snd (performSleepDetection env w1)) /\
  _isServiceActive (this w3) = false /\
  In h (listeners (host w3)) /\
  In (S h, 30000) (intervals (host w3)).
Proof.
  intros Hidle Hnative1 Hgranted1 Hset1 Hnative2 Hgranted2 h w1 w3.
  assert (Hweb1 : is_web (Platform_OS env1) = false)
    by (destruct (Platform_OS env1); [contradiction | reflexivity | reflexivity]).
  assert (Hweb2 : is_web (Platform_OS env2) = false)
    by (destruct (Platform_OS env2); [contradiction | reflexivity | reflexivity]).
  assert (Hok1 : is_granted (requestPermissionsAsync env1) = true)
    by (rewrite Hgranted1; reflexivity).
  assert (Hok2 : is_granted (requestPermissionsAsync env2) = true)
    by (rewrite Hgranted2; reflexivity).
  subst w3 w1.
  rewrite (startTracking_native env1 w Hidle Hweb1 Hok1), Hset1. cbn zeta.
  cbn [fst snd].
  split; [reflexivity |]. split; [reflexivity |].
  split; [left; reflexivity |]. split; [left; reflexivity |].
  split.
  { intro env. cbn [step host set_this set_console intervals existsb fst].
    fold h. rewrite Nat.eqb_refl. reflexivity. }
  rewrite startTracking_native by (try assumption; reflexivity).
  rewrite stopTracking_result. fold h.
  destruct (setItem_rejects env2), (setItem_rejects env3); cbn;
    rewrite ?Nat.eqb_refl;
    replace (Nat.eqb h (S (S h))) with false
      by (symmetry; apply Nat.eqb_neq; lia);
    replace (Nat.eqb h (S (S (S h)))) with false
      by (symmetry; apply Nat.eqb_neq; lia);
    cbn; repeat split; auto.
Qed.

Lemma failed_start_leaves_its_timer_witness :
  let w := initial (clock 21 59 0) in
  let w1 := snd (startTracking (surroundings_full_disk (clock 22 0 0)) w) in
  let w3 := snd (stopTracking (surroundings (clock 22 2 0))
                   (snd (startTracking (surroundings (clock 22 1 0)) w1))) in
  _isServiceActive (this w) = false /\
  setItem_rejects (surroundings_full_disk (clock 22 0 0)) = true /\
  _isServiceActive (this w3) = false /\
  In (1%nat, 30000) (intervals (host w3)).
Proof.
  split; [reflexivity |]. split; [reflexivity |].
  destruct (failed_start_leaves_its_timer
              (surroundings_full_disk (clock 22 0 0)) (surroundings (clock 22 1 0))
              (surroundings (clock 22 2 0)) (initial (clock 21 59 0)))
    as (_ & _ & _ & _ & _ & Hoff & _ & Htimer);
    try reflexivity; try discriminate.
  split; [exact Hoff | exact Htimer].
Defined.

(** X11. [stopTracking] cancels what the service holds, whether or not the
    store accepts the write: afterwards the service holds no subscription and
    no timer, the subscription and the timer it held are not live, and a
    measurement or a timer event that is still delivered for them does
    nothing. *)
Theorem stopTracking_cancels (env env' : Env) (w : World) :
  let w' := snd (stopTracking env w) in
  motionSubscription (this w') = None /\
  detectionInterval (this w') = None /\
  (forall h d, motionSubscription (this w) = Some h ->
               ~ In h (listeners (host w')) /\
               step w' (env', motion_update h d) = w') /\
  (forall h, detectionInterval (this w) = Some h ->
             ~ In h (map fst (intervals (host w'))) /\
             step w' (env', interval_fired h) = w').
Proof.
  rewrite stopTracking_result.
  assert (Hl : forall h ls, existsb (Nat.eqb h)
                              (filter (fun k => negb (Nat.eqb k h)) ls) = false).
  { intros h ls. induction ls as [| k ls IH]; [reflexivity |].
    cbn [filter]. destruct (Nat.eqb k h) eqn:Hk; cbn [negb]; [exact IH |].
    cbn [existsb]. rewrite Nat.eqb_sym, Hk, IH. reflexivity. }
  assert (Hi : forall h (ivs : list (nat * Z)),
             existsb (fun t => Nat.eqb h (fst t))
               (filter (fun t => negb (Nat.eqb (fst t) h)) ivs) = false).
  { intros h ivs. induction ivs as [| t ivs IH]; [reflexivity |].
    cbn [filter]. destruct (Nat.eqb (fst t) h) eqn:Ht; cbn [negb]; [exact IH |].
    cbn [existsb]. rewrite Nat.eqb_sym, Ht, IH. reflexivity. }
  destruct (setItem_rejects env); cbn [snd this host set_console set_disk
    motionSubscription detectionInterval listeners intervals];
    (split; [reflexivity |]; split; [reflexivity |]; split).
  all: intros h; intros; cbn [step host listeners intervals set_console set_disk].
  all: match goal with H : _ = Some _ |- _ => rewrite H end.
  all: rewrite ?Hl, ?Hi; split; try reflexivity.
  all: intro Hin.
  - apply filter_In in Hin. destruct Hin as [_ Hin].
    rewrite Nat.eqb_refl in Hin. discriminate.
  - apply in_map_iff in Hin. destruct Hin as (t & Ht & Hin).
    apply filter_In in Hin. destruct Hin as [_ Hin].
    rewrite Ht, Nat.eqb_refl in Hin. discriminate.
  - apply filter_In in Hin. destruct Hin as [_ Hin].
    rewrite Nat.eqb_refl in Hin. discriminate.
  - apply in_map_iff in Hin. destruct Hin as (t & Ht & Hin).
    apply filter_In in Hin. destruct Hin as [_ Hin].
    rewrite Ht, Nat.eqb_refl in Hin. discriminate.
Qed.

Lemma stopTracking_cancels_witness :
  let w' := snd (stopTracking (surroundings (clock 22 30 0)) evening) in
  motionSubscription (this evening) = Some O /\
  detectionInterval (this evening) = Some 1%nat /\
  step w' (surroundings (clock 22 30 1), motion_update 0 moved) = w' /\
  step w' (surroundings (clock 22 30 30), interval_fired 1) = w'.
Proof.
  split; [reflexivity |]. split; [reflexivity |].
  destruct (stopTracking_cancels (surroundings (clock 22 30 0))
              (surroundings (clock 22 30 1)) evening) as (_ & _ & Hlistener & _).
  destruct (stopTracking_cancels (surroundings (clock 22 30 0))
              (surroundings (clock 22 30 30)) evening) as (_ & _ & _ & Htimer).
  split.
  - exact (proj2 (Hlistener O moved eq_refl)).
  - exact (proj2 (Htimer 1%nat eq_refl)).
Defined.

Lemma filter_fresh_listener (h : nat) (ls : list nat) :
  (forall k, In k ls -> (k < h)%nat) ->
  filter (fun k => negb (Nat.eqb k h)) ls = ls.
Proof.
  induction ls as [| k ls IH]; intro Hbelow; [reflexivity |].
  cbn [filter]. replace (Nat.eqb k h) with false.
  - cbn [negb]. rewrite IH; [reflexivity |].
    intros j Hj. apply Hbelow. right. exact Hj.
  - symmetry. apply Nat.eqb_neq. specialize (Hbelow k (or_introl eq_refl)). lia.
Qed.

Lemma filter_fresh_interval (h : nat) (ivs : list (nat * Z)) :
  (forall t, In t ivs -> (fst t < h)%nat) ->
  filter (fun t => negb (Nat.eqb (fst t) h)) ivs = ivs.
Proof.
  induction ivs as [| t ivs IH]; intro Hbelow; [reflexivity |].
  cbn [filter]. replace (Nat.eqb (fst t) h) with false.
  - cbn [negb]. rewrite IH; [reflexivity |].
    intros j Hj. apply Hbelow. right. exact Hj.
  - symmetry. apply Nat.eqb_neq. specialize (Hbelow t (or_introl eq_refl)). lia.
Qed.

(** X12. [stopTracking] undoes a successful [startTracking]: when the live
    handles are all below the host's next handle, after the two calls the
    live listeners and timers are those from before, tracking is off, and the
    buffer and the current session are untouched. *)
Theorem stop_undoes_start (env1 env2 : Env) (w : World) :
  fresh_handles (host w) ->
  _isServiceActive (this w) = false ->
  Platform_OS env1 <> web ->
  requestPermissionsAsync env1 = granted ->
  setItem_rejects env1 = false ->
  let w2 := snd (stopTracking env2 (snd (startTracking env1 w))) in
  listeners (host w2) = listeners (host w) /\
  intervals (host w2) = intervals (host w) /\
  _isServiceActive (this w2) = false /\
  motionSubscription (this w2) = None /\
  detectionInterval (this w2) = None /\
  motionBuffer (this w2) = motionBuffer (this w) /\
  currentSession (this w2) = currentSession (this w).
Proof.
  intros [Hlisteners Hintervals] Hidle Hnative Hgranted Hset w2. subst w2.
  rewrite startTracking_native, Hset.
  - rewrite stopTracking_result.
    destruct (setItem_rejects env2); cbn; rewrite !Nat.eqb_refl; cbn;
      rewrite filter_fresh_listener by exact Hlisteners;
      rewrite filter_fresh_interval
        by (intros t Ht; specialize (Hintervals t Ht); lia);
      repeat split.
  - exact Hidle.
  - destruct (Platform_OS env1); [contradiction | reflexivity | reflexivity].
  - rewrite Hgranted. reflexivity.
Qed.

Lemma stop_undoes_start_witness :
  let w := initial (clock 21 59 0) in
  let w2 := snd (stopTracking (surroundings (clock 23 0 0))
                   (snd (startTracking (surroundings (clock 22 0 0)) w))) in
  fresh_handles (host w) /\
  _isServiceActive (this w) = false /\
  listeners (host w2) = [] /\
  intervals (host w2) = [].
Proof.
  assert (Hfresh : fresh_handles (host (initial (clock 21 59 0)))).
  { split; intros k []. }
  split; [exact Hfresh |]. split; [reflexivity |].
  destruct (stop_undoes_start (surroundings (clock 22 0 0))
              (surroundings (clock 23 0 0)) (initial (clock 21 59 0)) Hfresh)
    as (Hlisteners & Hintervals & _); try reflexivity; [discriminate |].
  split; [exact Hlisteners | exact Hintervals].
Defined.

(** X13. The stored flag follows the calls that go through: after a
    [stopTracking] whose write is accepted [isTracking] answers false, and
    after a [startTracking] from the idle state, with the permission granted
    and the write accepted, it answers true; either way it agrees with what
    [getDetectionState] reports. *)
Theorem isTracking_follows_the_calls (env env' : Env) (w : World) :
  setItem_rejects env = false ->
  getItem_rejects env' = false ->
  (fst (isTracking env' (snd (stopTracking env w))) = Normal false /\
   DetectionState.isTracking
     (getDetectionState env' (this (snd (stopTracking env w)))) = false)
  /\
  (_isServiceActive (this w) = false ->
   Platform_OS env <> web ->
   requestPermissionsAsync env = granted ->
   fst (isTracking env' (snd (startTracking env w))) = Normal true /\
   DetectionState.isTracking
     (getDetectionState env' (this (snd (startTracking env w)))) = true).
Proof.
  intros Hset Hget. split.
  - rewrite isTracking_result by exact Hget.
    rewrite stopTracking_result, Hset. split; reflexivity.
  - intros Hidle Hnative Hgranted.
    rewrite isTracking_result by exact Hget.
    rewrite startTracking_native, Hset.
    + split; reflexivity.
    + exact Hidle.
    + destruct (Platform_OS env); [contradiction | reflexivity | reflexivity].
    + rewrite Hgranted. reflexivity.
Qed.

Lemma isTracking_follows_the_calls_witness :
  fst (isTracking (surroundings (clock 22 0 1))
         (snd (startTracking (surroundings (clock 22 0 0)) (initial (clock 21 59 0)))))
    = Normal true /\
  fst (isTracking (surroundings (clock 22 30 1))
         (snd (stopTracking (surroundings (clock 22 30 0)) evening)))
    = Normal false.
Proof.
  split.
  - apply (proj2 (isTracking_follows_the_calls (surroundings (clock 22 0 0))
                    (surroundings (clock 22 0 1)) (initial (clock 21 59 0))
                    eq_refl eq_refl));
      [reflexivity | discriminate | reflexivity].
  - apply (proj1 (isTracking_follows_the_calls (surroundings (clock 22 30 0))
                    (surroundings (clock 22 30 1)) evening eq_refl eq_refl)).
Defined.

(** X14. When the store rejects the write, [stopTracking] throws after it has
    already switched tracking off, and the stored flag keeps its old value:
    if it said true, [isTracking] goes on answering true while
    [getDetectionState] reports false. *)
Theorem rejected_stop_leaves_a_stale_flag (env env' : Env) (w : World) :
  setItem_rejects env = true ->
  getItem_rejects env' = false ->
  sleepTracking (disk w) = Some "true"%string ->
  fst (stopTracking env w) = Throw (mkError "AsyncStorage.setItem") /\
  DetectionState.isTracking
    (getDetectionState env' (this (snd (stopTracking env w)))) = false /\
  fst (isTracking env' (snd (stopTracking env w))) = Normal true.
Proof.
  intros Hset Hget Hflag.
  rewrite isTracking_result by exact Hget.
  rewrite stopTracking_result, Hset. cbn [fst snd disk]. rewrite Hflag.
  repeat split.
Qed.

Lemma rejected_stop_leaves_a_stale_flag_witness :
  sleepTracking (disk evening) = Some "true"%string /\
  fst (stopTracking (surroundings_full_disk (clock 22 30 0)) evening)
    = Throw (mkError "AsyncStorage.setItem") /\
  fst (isTracking (surroundings (clock 22 30 1))
         (snd (stopTracking (surroundings_full_disk (clock 22 30 0)) evening)))
    = Normal true.
Proof.
  split; [reflexivity |].
  destruct (rejected_stop_leaves_a_stale_flag
              (surroundings_full_disk (clock 22 30 0))
              (surroundings (clock 22 30 1)) evening)
    as (Hthrow & _ & Hflag); try reflexivity.
  split; [exact Hthrow | exact Hflag].
Defined.

(** X15. A measurement that arrives after [stopTracking] is dropped: the
    listener returns at once and the world is as the call left it. *)
Theorem late_measurement_is_dropped
    (env env' : Env) (d : Sensor.Measurement) (w : World) :
  motionListener d env' (snd (stopTracking env w))
    = (Normal tt, snd (stopTracking env w)).
Proof.
  apply listener_inactive. exact (proj1 (stopTracking_frame env w)).
Qed.

(** X16. A measurement without an acceleration reading is recorded with zero
    acceleration and never counts as activity: the last activity stays what
    it was. *)
Theorem missing_acceleration_is_no_activity
    (env : Env) (d : Sensor.Measurement) (w : World) :
  _isServiceActive (this w) = true ->
  Sensor.acceleration d = None ->
  lastActivity (this (snd (motionListener d env w))) = lastActivity (this w) /\
  motionBuffer (this (snd (motionListener d env w)))
    = record {| timestamp := now env;
                acceleration := {| x := 0; y := 0; z := 0 |};
                rotation := rotation (sample env d) |} (motionBuffer (this w)).
Proof.
  intros Hactive Hnone. rewrite (listener_active env d w Hactive).
  cbn [snd this lastActivity motionBuffer].
  unfold hasSignificantMotion, sample. rewrite Hnone. split; reflexivity.
Qed.

Lemma missing_acceleration_is_no_activity_witness :
  let d := {| Sensor.acceleration := None; Sensor.rotation := None |} in
  _isServiceActive (this evening) = true /\
  lastActivity (this (snd (motionListener d (surroundings (clock 22 0 1)) evening)))
    = lastActivity (this evening) /\
  List.length
    (motionBuffer (this (snd (motionListener d (surroundings (clock 22 0 1)) evening))))
    = 1%nat.
Proof.
  split; [reflexivity |].
  destruct (missing_acceleration_is_no_activity (surroundings (clock 22 0 1))
              {| Sensor.acceleration := None; Sensor.rotation := None |} evening)
    as (Hlast & Hbuffer); try reflexivity.
  split; [exact Hlast |]. rewrite Hbuffer. reflexivity.
Defined.

(** X17. The recent motion level is never above 1, and it is decided by the
    last 60 samples alone: older samples in the buffer do not change it. *)
Theorem motion_level_window
    (self : SleepDetectionService) (older recent : list DeviceMotionData) :
  JS.gt (getRecentMotionLevel self) 1 = false /\
  (List.length recent = 60%nat ->
   getRecentMotionLevel (set_motionBuffer (older ++ recent) self)
     = getRecentMotionLevel (set_motionBuffer recent self)).
Proof.
  split.
  - unfold getRecentMotionLevel.
    destruct (Nat.eqb (List.length (motionBuffer self)) 0); [reflexivity |].
    cbv zeta. apply Math_min_one.
  - intro Hlen. unfold getRecentMotionLevel. cbn [motionBuffer set_motionBuffer].
    assert (Hslice : JS.slice_last 60 (older ++ recent) = recent).
    { unfold JS.slice_last. rewrite length_app, Hlen.
      replace (List.length older + 60 - 60)%nat with (List.length older) by lia.
      rewrite skipn_app, skipn_all, Nat.sub_diag. reflexivity. }
    assert (Hself : JS.slice_last 60 recent = recent)
      by (apply slice_last_short; lia).
    rewrite Hslice, Hself, length_app, Hlen.
    replace (Nat.eqb (List.length older + 60) 0) with false
      by (symmetry; apply Nat.eqb_neq; lia).
    reflexivity.
Qed.

Lemma motion_level_window_witness :
  let recent := map (fun d => sample (fst d) (snd d)) (reports 60) in
  List.length recent = 60%nat /\
  getRecentMotionLevel (set_motionBuffer ([loud; loud] ++ recent) (this evening))
    = getRecentMotionLevel (set_motionBuffer recent (this evening)).
Proof.
  split; [reflexivity |].
  apply (proj2 (motion_level_window (this evening) [loud; loud]
                  (map (fun d => sample (fst d) (snd d)) (reports 60)))).
  reflexivity.
Defined.

(** X18. An evaluation tick touches the current session, the stored sessions
    and the console and nothing else: the tracking flag, the subscription,
    the timer, the last activity, the buffer, the host and the stored flag
    are as before, also when the store rejects the write. *)
Theorem tick_touches_only_the_session (env : Env) (w : World) :
  let w' := snd (performSleepDetection env w) in
  _isServiceActive (this w') = _isServiceActive (this w) /\
  motionSubscription (this w') = motionSubscription (this w) /\
  detectionInterval (this w') = detectionInterval (this w) /\
  lastActivity (this w') = lastActivity (this w) /\
  motionBuffer (this w') = motionBuffer (this w) /\
  host w' = host w /\
  sleepTracking (disk w') = sleepTracking (disk w) /\
  (currentSession (this w') = currentSession (this w)
   \/ currentSession (this w) = None
   \/ currentSession (this w') = None).
Proof.
  destruct (tick_keeps_the_rest env w) as (H1 & H2 & H3 & H4 & H5 & H6 & H7).
  repeat (split; [assumption |]).
  destruct (currentSession (this w)) as [s |] eqn:Hcur; [| auto].
  destruct (JS.lt (tickProbability env w) 0.3) eqn:Hlt.
  - destruct (setItem_rejects env) eqn:Hset.
    + rewrite (tick_wake_fails env w s Hcur Hlt Hset). left.
      cbn [snd this set_console]. exact Hcur.
    + rewrite (tick_wake env w s Hcur Hlt Hset). right. right. reflexivity.
  - rewrite (tick_asleep env w s Hcur Hlt). left. exact Hcur.
Qed.

(** ** The dashboard *)

Lemma startTracking_never_throws (env : Env) (w : World) :
  fst (startTracking env w) = Normal tt.
Proof.
  destruct (_isServiceActive (this w)) eqn:Hactive.
  - rewrite (startTracking_active env w Hactive). reflexivity.
  - destruct (is_web (Platform_OS env)) eqn:Hweb.
    + rewrite (startTracking_web env w Hactive Hweb).
      destruct (setItem_rejects env); reflexivity.
    + destruct (is_granted (requestPermissionsAsync env)) eqn:Hgranted.
      * rewrite (startTracking_native env w Hactive Hweb Hgranted).
        destruct (setItem_rejects env); reflexivity.
      * rewrite (startTracking_denied env w Hactive Hweb Hgranted). reflexivity.
Qed.

(** X19. Whenever the stored flag can be read, [initializeSleepTracking]
    completes normally and leaves the screen showing tracking as on.  It does
    so also when the flag was off and the permission is then denied, in which
    case the service is not tracking and has registered nothing. *)
Theorem dashboard_always_shows_tracking
    (env : Env) (ui : Dashboard.State) (w : World) :
  getItem_rejects env = false ->
  (let '(result, ui', _) := initializeSleepTracking env ui w in
   result = Normal tt /\ Dashboard.isTracking ui' = true)
  /\
  (sleepTracking (disk w) = None ->
   _isServiceActive (this w) = false ->
   Platform_OS env <> web ->
   requestPermissionsAsync env <> granted ->
   let '(_, ui', w') := initializeSleepTracking env ui w in
   Dashboard.isTracking ui' = true /\
   _isServiceActive (this w') = false /\
   host w' = host w).
Proof.
  intro Hget. unfold initializeSleepTracking.
  rewrite (isTracking_result env w Hget). split.
  - destruct (match sleepTracking (disk w) with
              | Some v => String.eqb v "true"
              | None => false
              end); cbn [negb]; [split; reflexivity |].
    pose proof (startTracking_never_throws env w) as Hstart.
    destruct (startTracking env w) as [[u | e] w2]; cbn [fst] in Hstart;
      [split; reflexivity | discriminate Hstart].
  - intros Hflag Hidle Hnative Hdenied. rewrite Hflag. cbn [negb].
    rewrite startTracking_denied.
    + repeat split. cbn [this set_console]. exact Hidle.
    + exact Hidle.
    + destruct (Platform_OS env); [contradiction | reflexivity | reflexivity].
    + destruct (requestPermissionsAsync env);
        [contradiction | reflexivity | reflexivity].
Qed.

Lemma dashboard_always_shows_tracking_witness :
  let env := surroundings_denied (clock 22 0 0) in
  let w := initial (clock 21 59 0) in
  getItem_rejects env = false /\
  sleepTracking (disk w) = None /\
  _isServiceActive (this w) = false /\
  let '(_, ui', w') := initializeSleepTracking env mounted w in
  Dashboard.isTracking ui' = true /\
  _isServiceActive (this w') = false /\
  host w' = host w.
Proof.
  split; [reflexivity |]. split; [reflexivity |]. split; [reflexivity |].
  apply (proj2 (dashboard_always_shows_tracking (surroundings_denied (clock 22 0 0))
                  mounted (initial (clock 21 59 0)) eq_refl));
    [reflexivity | reflexivity | discriminate | discriminate].
Defined.

(** X20. A stored flag that says true keeps [initializeSleepTracking] from
    starting anything: the world is left exactly as it was, so a service that
    is not tracking (as after a restart of the application) stays so, while
    the screen shows tracking as on. *)
Theorem stored_flag_blocks_the_start
    (env : Env) (ui : Dashboard.State) (w : World) :
  getItem_rejects env = false ->
  sleepTracking (disk w) = Some "true"%string ->
  initializeSleepTracking env ui w = (Normal tt, setIsTracking true ui, w).
Proof.
  intros Hget Hflag. unfold initializeSleepTracking.
  rewrite (isTracking_result env w Hget), Hflag. reflexivity.
Qed.

Lemma stored_flag_blocks_the_start_witness :
  let restarted :=
    set_disk (disk evening) (initial (clock 23 0 0)) in
  sleepTracking (disk restarted) = Some "true"%string /\
  _isServiceActive (this restarted) = false /\
  initializeSleepTracking (surroundings (clock 23 0 1)) mounted restarted
    = (Normal tt, setIsTracking true mounted, restarted).
Proof.
  split; [reflexivity |]. split; [reflexivity |].
  apply stored_flag_blocks_the_start; reflexivity.
Defined.

(** X21. Two presses of the button make one manual session.  The first press
    stores an open session with [isManual] true and confidence 1; the second
    stores, under the same id and in its place, the closed session whose wake
    time is the first clock reading of that press and whose duration is the
    second reading minus the bedtime; the quality stays 0.  The screen shows
    the closed session and it is the one read back from the store. *)
Theorem two_presses_one_manual_session
    (env1 env2 env3 : Env) (ui : Dashboard.State) (w : World) :
  Dashboard.currentSession ui = None ->
  setItem_rejects env1 = false ->
  getItem_rejects env2 = false ->
  setItem_rejects env2 = false ->
  getItem_rejects env3 = false ->
  let '(_, ui1, w1) := handleManualSleepToggle env1 ui w in
  let '(result, ui2, w2) := handleManualSleepToggle env2 ui1 w1 in
  let closed :=
    {| id := JS.toString (now env1);
       bedtime := now_start env1;
       wakeTime := Some (now env2);
       duration := now_end env2 - now_start env1;
       quality := 0;
       isManual := true;
       confidence := 1 |} in
  result = Normal tt /\
  Dashboard.currentSession ui1 = Some (manuallyOpened env1) /\
  Dashboard.currentSession ui2 = Some closed /\
  find (same_id closed) (stored env3 (disk w2)) = Some closed /\
  List.length (stored env3 (disk w2)) = List.length (stored env2 (disk w1)).
Proof.
  intros Hnone Hset1 Hget2 Hset2 Hget3.
  unfold handleManualSleepToggle. rewrite Hnone.
  rewrite (saveSleepSession_written _ env1 w Hset1).
  cbn [Dashboard.currentSession setCurrentSession manuallyOpened wakeTime isNull].
  rewrite saveSleepSession_written by exact Hset2.
  cbn [disk].
  rewrite !stored_written by assumption.
  split; [reflexivity |]. split; [reflexivity |]. split; [reflexivity |].
  split.
  - apply (upsert_find (manuallyClosed env2 (manuallyOpened env1))).
  - rewrite upsert_length, (proj2 (existsb_exists _ _)); [reflexivity |].
    exists (manuallyOpened env1). split.
    + apply find_some with (f := same_id (manuallyOpened env1)).
      apply upsert_find.
    + unfold same_id. apply String.eqb_refl.
Qed.

Lemma two_presses_one_manual_session_witness :
  let '(_, ui1, w1) :=
    handleManualSleepToggle (surroundings (clock 13 0 0)) mounted morning in
  let '(result, ui2, w2) :=
    handleManualSleepToggle (surroundings (clock 13 30 0)) ui1 w1 in
  Dashboard.currentSession mounted = None /\
  result = Normal tt /\
  Dashboard.currentSession ui2 = Some nap /\
  List.length (stored (surroundings (clock 13 30 0)) (disk w2))
    = List.length (stored (surroundings (clock 13 30 0)) (disk w1)).
Proof.
  pose proof (two_presses_one_manual_session (surroundings (clock 13 0 0))
                (surroundings (clock 13 30 0)) (surroundings (clock 13 30 0))
                mounted morning eq_refl eq_refl eq_refl eq_refl eq_refl) as H.
  destruct (handleManualSleepToggle (surroundings (clock 13 0 0)) mounted morning)
    as [[r1 ui1] w1].
  destruct (handleManualSleepToggle (surroundings (clock 13 30 0)) ui1 w1)
    as [[r2 ui2] w2].
  destruct H as (Hresult & _ & Hshown & _ & Hlength).
  split; [reflexivity |]. split; [exact Hresult |].
  split; [rewrite Hshown; vm_compute; reflexivity | exact Hlength].
Defined.

(** X22. When the store rejects the write, a press of the button throws and
    the screen and the stored sessions stay as they were. *)
Theorem rejected_press_changes_nothing
    (env : Env) (ui : Dashboard.State) (w : World) :
  setItem_rejects env = true ->
  let '(result, ui', w') := handleManualSleepToggle env ui w in
  result = Throw (mkError "AsyncStorage.setItem") /\
  ui' = ui /\
  disk w' = disk w.
Proof.
  intro Hset. unfold handleManualSleepToggle.
  rewrite saveSleepSession_rejected by exact Hset. repeat split.
Qed.

Lemma rejected_press_changes_nothing_witness :
  setItem_rejects (surroundings_full_disk (clock 13 0 0)) = true /\
  let '(result, ui', w') :=
    handleManualSleepToggle (surroundings_full_disk (clock 13 0 0)) mounted morning in
  result = Throw (mkError "AsyncStorage.setItem") /\
  ui' = mounted /\
  disk w' = disk morning.
Proof.
  split; [reflexivity |].
  apply (rejected_press_changes_nothing (surroundings_full_disk (clock 13 0 0))
           mounted morning).
  reflexivity.
Defined.

(** X23. The button never reaches the detection service: a press leaves the
    service and the host as they were.  So while a manual session is open the
    detector, if it is idle, still opens a session of its own at the next
    tick whose probability is above the start threshold. *)
Theorem manual_session_does_not_stop_the_detector
    (env env' : Env) (ui : Dashboard.State) (w : World) :
  let '(_, _, w') := handleManualSleepToggle env ui w in
  this w' = this w /\
  host w' = host w /\
  (currentSession (this w) = None ->
   JS.gt (tickProbability env' w) SLEEP_CONFIDENCE_THRESHOLD = true ->
   exists s, currentSession (this (snd (performSleepDetection env' w'))) = Some s /\
             isManual s = false).
Proof.
  unfold handleManualSleepToggle.
  set (session := match Dashboard.currentSession ui with
                  | Some current =>
                      if isNull (wakeTime current) then manuallyClosed env current
                      else manuallyOpened env
                  | None => manuallyOpened env
                  end).
  destruct (setItem_rejects env) eqn:Hset.
  - rewrite (saveSleepSession_rejected session env w Hset).
    split; [reflexivity |]. split; [reflexivity |].
    intros Hnone Hgt. rewrite tick_start; [eexists; split; reflexivity | exact Hnone |].
    exact Hgt.
  - rewrite (saveSleepSession_written session env w Hset).
    split; [reflexivity |]. split; [reflexivity |].
    intros Hnone Hgt. rewrite tick_start; [eexists; split; reflexivity | exact Hnone |].
    exact Hgt.
Qed.

(** ** The analytics *)

(** X24. With fewer than eight finalized sessions the duration trend is
    always "Estable": sessions without a wake time are not counted, and the
    comparison of the last seven with the seven before needs at least one
    session in the older group. *)
Theorem trend_needs_eight_sessions (sessions : list SleepSession) :
  (List.length (SleepAnalytics.constructor sessions) < 8)%nat ->
  SleepAnalytics.getDurationTrend (SleepAnalytics.constructor sessions)
    = "Estable"%string.
Proof.
  intro Hfew. unfold SleepAnalytics.getDurationTrend.
  destruct (Nat.ltb (List.length (SleepAnalytics.constructor sessions)) 3);
    [reflexivity |].
  cbv zeta. unfold SleepAnalytics.slice_between.
  replace (List.length (SleepAnalytics.constructor sessions) - 7
             - (List.length (SleepAnalytics.constructor sessions) - 14))%nat
    with O by lia.
  reflexivity.
Qed.

Lemma trend_needs_eight_sessions_witness :
  let sessions := [full_night; nap; full_night; nap; full_night; nap; full_night;
                   openedSession (surroundings (clock 22 12 0)) (this evening) 0.9] in
  List.length sessions = 8%nat /\
  (List.length (SleepAnalytics.constructor sessions) < 8)%nat /\
  SleepAnalytics.getDurationTrend (SleepAnalytics.constructor sessions)
    = "Estable"%string.
Proof.
  split; [reflexivity |].
  assert (H : (List.length
                 (SleepAnalytics.constructor
                    [full_night; nap; full_night; nap; full_night; nap; full_night;
                     openedSession (surroundings (clock 22 12 0)) (this evening) 0.9])
               < 8)%nat) by (cbn; lia).
  split; [exact H |].
  apply trend_needs_eight_sessions. exact H.
Defined.

Lemma no_debt_sum (target : Z) (l : list SleepSession) :
  Forall (fun s => target <= duration s) l ->
  forall acc,
    fold_left (fun debt session => debt + Z.max 0 (target - duration session)) l acc
      = acc.
Proof.
  induction 1 as [| s l Hs _ IH]; intro acc; [reflexivity |].
  cbn [fold_left]. rewrite IH. lia.
Qed.

(** X25. The sleep debt looks at the last seven sessions only and is 0 hours
    when each of them lasted at least 8 hours, whatever the older sessions
    were; it is 0 as well when there is no session. *)
Theorem no_debt_after_full_nights (sessions : list SleepSession) :
  Forall (fun s => 8 * 3600000 <= duration s) (JS.slice_last 7 sessions) ->
  SleepAnalytics.getSleepDebtHours sessions = 0%float.
Proof.
  intro Hfull. unfold SleepAnalytics.getSleepDebtHours. cbv zeta.
  destruct (Nat.eqb (List.length (JS.slice_last 7 sessions)) 0); [reflexivity |].
  rewrite (no_debt_sum (8 * 60 * 60 * 1000)) by exact Hfull. reflexivity.
Qed.

Lemma no_debt_after_full_nights_witness :
  let sessions := [nap; full_night; full_night; full_night; full_night;
                   full_night; full_night; full_night] in
  Forall (fun s => 8 * 3600000 <= duration s) (JS.slice_last 7 sessions) /\
  SleepAnalytics.getSleepDebtHours sessions = 0%float.
Proof.
  assert (H : Forall (fun s => 8 * 3600000 <= duration s)
                (JS.slice_last 7
                   [nap; full_night; full_night; full_night; full_night;
                    full_night; full_night; full_night])).
  { cbn. repeat constructor; cbn; lia. }
  split; [exact H |]. apply no_debt_after_full_nights. exact H.
Defined.

(** ** Handles *)

Lemma fresh_handles_more (n : nat) (ls : list nat) (ivs : list (nat * Z))
    (ui ui' : option Z) (n' : nat) (ls' : list nat) (ivs' : list (nat * Z)) :
  fresh_handles {| nextHandle := n; listeners := ls; intervals := ivs;
                   updateInterval := ui |} ->
  (n <= n')%nat ->
  (forall k, In k ls' -> In k ls \/ (n <= k < n')%nat) ->
  (forall t, In t ivs' -> In t ivs \/ (n <= fst t < n')%nat) ->
  fresh_handles {| nextHandle := n'; listeners := ls'; intervals := ivs';
                   updateInterval := ui' |}.
Proof.
  intros [Hl Hi] Hle Hls Hivs. split; cbn [nextHandle listeners intervals] in *.
  - intros k Hk. destruct (Hls k Hk) as [H | H]; [specialize (Hl k H) |]; lia.
  - intros t Ht. destruct (Hivs t Ht) as [H | H]; [specialize (Hi t H) |]; lia.
Qed.

Lemma step_fresh_handles (w : World) (ee : Env * Event) :
  fresh_handles (host w) -> fresh_handles (host (step w ee)).
Proof.
  intro Hfresh. destruct ee as [env ev].
  destruct ev as [| | h d | h]; cbn [step].
  - destruct (_isServiceActive (this w)) eqn:Hactive;
      [rewrite (startTracking_active env w Hactive); exact Hfresh |].
    destruct (is_web (Platform_OS env)) eqn:Hweb.
    + rewrite (startTracking_web env w Hactive Hweb).
      destruct (host w) as [n ls ivs ui] eqn:Hhost.
      destruct (setItem_rejects env); cbn;
        (eapply fresh_handles_more; [exact Hfresh | | |]);
        try (instantiate (1 := S n); lia); cbn; intros;
        repeat match goal with
               | H : _ \/ _ |- _ => destruct H
               end; subst; cbn; auto; right; lia.
    + destruct (is_granted (requestPermissionsAsync env)) eqn:Hgranted.
      * rewrite (startTracking_native env w Hactive Hweb Hgranted).
        destruct (host w) as [n ls ivs ui] eqn:Hhost.
        destruct (setItem_rejects env); cbn;
          (eapply fresh_handles_more; [exact Hfresh | | |]);
          try (instantiate (1 := S (S n)); lia); cbn; intros;
          repeat match goal with
                 | H : _ \/ _ |- _ => destruct H
                 end; subst; cbn; auto; right; lia.
      * rewrite (startTracking_denied env w Hactive Hweb Hgranted). exact Hfresh.
  - rewrite stopTracking_result.
    destruct (host w) as [n ls ivs ui] eqn:Hhost.
    destruct (setItem_rejects env); cbn;
      (eapply fresh_handles_more; [exact Hfresh | apply Nat.le_refl | |]);
      intros x Hx; left;
      destruct (motionSubscription (this w)), (detectionInterval (this w));
      try exact Hx; apply filter_In in Hx; tauto.
  - destruct (existsb (Nat.eqb h) (listeners (host w))); [| exact Hfresh].
    rewrite (proj1 (proj2 (listener_frame env d w))). exact Hfresh.
  - destruct (existsb (fun t => Nat.eqb h (fst t)) (intervals (host w)));
      [| exact Hfresh].
    destruct (tick_keeps_the_rest env w) as (_ & _ & _ & _ & _ & Hhost & _).
    rewrite Hhost. exact Hfresh.
Qed.

(** The hypothesis of X12 holds in every world that the event loop reaches. *)
Lemma fresh_handles_run (evs : list (Env * Event)) (t0 : Date) :
  fresh_handles (host (run evs (initial t0))).
Proof.
  assert (H : forall w, fresh_handles (host w) -> fresh_handles (host (run evs w))).
  { induction evs as [| ee evs IH]; intros w Hw; [exact Hw |].
    change (run (ee :: evs) w) with (run evs (step w ee)).
    apply IH, step_fresh_handles, Hw. }
  apply H. split; intros k [].
Qed.

Lemma manual_session_does_not_stop_the_detector_witness :
  let '(_, ui', w') :=
    handleManualSleepToggle (surroundings (clock 22 11 0)) mounted evening in
  Dashboard.currentSession ui' = Some (manuallyOpened (surroundings (clock 22 11 0))) /\
  currentSession (this evening) = None /\
  JS.gt (tickProbability (surroundings (clock 22 12 0)) evening)
        SLEEP_CONFIDENCE_THRESHOLD = true /\
  exists s,
    currentSession (this (snd (performSleepDetection (surroundings (clock 22 12 0)) w')))
      = Some s /\
    isManual s = false.
Proof.
  pose proof (manual_session_does_not_stop_the_detector
                (surroundings (clock 22 11 0)) (surroundings (clock 22 12 0))
                mounted evening) as H.
  assert (Hui : Dashboard.currentSession
                  (snd (fst (handleManualSleepToggle (surroundings (clock 22 11 0))
                               mounted evening)))
                = Some (manuallyOpened (surroundings (clock 22 11 0))))
    by (vm_compute; reflexivity).
  destruct (handleManualSleepToggle (surroundings (clock 22 11 0)) mounted evening)
    as [[r ui'] w'].
  destruct H as (_ & _ & Hopens).
  split; [exact Hui |]. split; [reflexivity |].
  split; [vm_compute; reflexivity |].
  apply Hopens; [reflexivity | vm_compute; reflexivity].
Defined.

(** X26. Saving is idempotent: saving the same session a second time leaves
    the stored sessions as the first save left them. *)
Theorem save_twice_is_save_once
    (c : SleepSession) (env1 env2 : Env) (w : World) :
  setItem_rejects env1 = false ->
  getItem_rejects env2 = false ->
  setItem_rejects env2 = false ->
  sleep_sessions
    (disk (snd (StorageService.saveSleepSession c env2
                  (snd (StorageService.saveSleepSession c env1 w)))))
    = sleep_sessions (disk (snd (StorageService.saveSleepSession c env1 w))).
Proof.
  intros Hset1 Hget2 Hset2.
  rewrite (saveSleepSession_written c env1 w Hset1). cbn [snd].
  rewrite saveSleepSession_written by exact Hset2.
  cbn [snd disk sleep_sessions write_sleep_sessions].
  rewrite stored_written by exact Hget2.
  rewrite upsert_idempotent. reflexivity.
Qed.

Lemma save_twice_is_save_once_witness :
  let env := surroundings (clock 13 31 0) in
  sleep_sessions
    (disk (snd (StorageService.saveSleepSession nap env
                  (snd (StorageService.saveSleepSession nap env morning)))))
    = sleep_sessions (disk (snd (StorageService.saveSleepSession nap env morning))).
Proof.
  apply (save_twice_is_save_once nap (surroundings (clock 13 31 0))
           (surroundings (clock 13 31 0)) morning); reflexivity.
Defined.
